(** * simplemediawiki: the MediaWiki API client, embedded and verified

    A shallow embedding of [simplemediawiki.py] (class [MediaWiki]):
    the request transport ([_fetch_http], [call]), endpoint
    normalization ([normalize_api_url]), the login handshake ([login],
    [logout]), the two caches ([limits], [namespaces]) and the date
    helper ([parse_date]).

    Python values are the values [json.loads] produces; a method of the
    class is a state transformer over the client object and the list of
    requests put on the wire, returning a value or raising. *)

From Stdlib Require Import ZArith String Ascii List Bool Lia.
From stdpp Require Import gmap strings list fin_maps.

Set Warnings "-register-all".
Open Scope string_scope.
Open Scope Z_scope.

(** ** Python values *)

(** The values this program handles are those of [json.loads]: [None],
    booleans, integers, text, lists and dicts with text keys.  A dict is
    kept as its members in order; a key is looked up at its first
    binding.  Numbers with a fraction do not occur in the replies the
    program inspects and are left out. *)
Inductive json : Type :=
| JNull
| JBool (b : bool)
| JInt (n : Z)
| JStr (s : string)
| JArr (items : list json)
| JObj (members : list (string * json)).

(** The exceptions the program can meet.  [URLError] stands for whatever
    the opener raises (network, TLS, HTTP status); [RecursionError] is
    raised when the interpreter's stack is exhausted. *)
Inductive exn : Type :=
| URLError | ValueError | KeyError | IndexError | TypeError | RecursionError.

Inductive outcome (A : Type) : Type :=
| Ret (a : A)
| Raise (e : exn).
Arguments Ret {A} a.
Arguments Raise {A} e.

Module Py.

(** Truth value testing, as in [if v:]. *)
Definition truthy (v : json) : bool :=
  match v with
  | JNull => false
  | JBool b => b
  | JInt n => negb (n =? 0)
  | JStr s => negb (String.eqb s "")
  | JArr items => match items with [] => false | _ => true end
  | JObj members => match members with [] => false | _ => true end
  end.

(** [v == 'text'] for a text literal. *)
Definition eq_str (v : json) (t : string) : bool :=
  match v with
  | JStr s => String.eqb s t
  | _ => false
  end.

Fixpoint assoc (k : string) (members : list (string * json)) : option json :=
  match members with
  | [] => None
  | (k', v) :: rest => if String.eqb k' k then Some v else assoc k rest
  end.

(** Position [i] of a sequence of length [len]; negative positions
    count from the end. *)
Definition position (i : Z) (len : nat) : option nat :=
  let j := if i <? 0 then i + Z.of_nat len else i in
  if (0 <=? j) && (j <? Z.of_nat len) then Some (Z.to_nat j) else None.

Definition index_of (key : json) : option Z :=
  match key with
  | JInt i => Some i
  | JBool b => Some (if b then 1 else 0)
  | _ => None
  end.

(** Subscription [v[key]]. *)
Definition subscript (v key : json) : outcome json :=
  match v with
  | JObj members =>
      match key with
      | JStr k => match assoc k members with
                  | Some x => Ret x
                  | None => Raise KeyError
                  end
      | JArr _ | JObj _ => Raise TypeError
      | _ => Raise KeyError
      end
  | JArr items =>
      match index_of key with
      | Some i => match position i (List.length items) with
                  | Some n => match nth_error items n with
                              | Some x => Ret x
                              | None => Raise IndexError
                              end
                  | None => Raise IndexError
                  end
      | None => Raise TypeError
      end
  | JStr s =>
      match index_of key with
      | Some i => match position i (String.length s) with
                  | Some n => match String.get n s with
                              | Some c => Ret (JStr (String c ""))
                              | None => Raise IndexError
                              end
                  | None => Raise IndexError
                  end
      | None => Raise TypeError
      end
  | _ => Raise TypeError
  end.

(** [v['key']] for a text literal. *)
Definition item (v : json) (k : string) : outcome json := subscript v (JStr k).

(** Text before the first occurrence of [sep], when there is one:
    [s.split(sep)[0]] for a text that contains [sep]. *)
Fixpoint before (sep s : string) : option string :=
  if String.prefix sep s then Some ""
  else match s with
       | "" => None
       | String c s' => option_map (String c) (before sep s')
       end.

(** ['sep' in s] on texts. *)
Definition occurs (sep s : string) : bool :=
  match before sep s with Some _ => true | None => false end.

(** ['text' in v]. *)
Definition contains (t : string) (v : json) : outcome bool :=
  match v with
  | JArr items => Ret (existsb (fun x => eq_str x t) items)
  | JObj members => Ret (existsb (fun kv => String.eqb (fst kv) t) members)
  | JStr s => Ret (occurs t s)
  | _ => Raise TypeError
  end.

Fixpoint chars (s : string) : list json :=
  match s with
  | "" => []
  | String c s' => JStr (String c "") :: chars s'
  end.

(** The elements [for x in v] runs over. *)
Definition iterate (v : json) : outcome (list json) :=
  match v with
  | JObj members => Ret (map (fun kv => JStr (fst kv)) members)
  | JArr items => Ret items
  | JStr s => Ret (chars s)
  | _ => Raise TypeError
  end.

(** [d.update(other)] on dicts keyed by integers: the bindings of
    [other] win. *)
Definition update (d other : gmap Z json) : gmap Z json := other ∪ d.

End Py.

(** ** The client object and the wire *)

(** What [_fetch_http] hands to the opener: whether the parameters go in
    the query string of a GET ([force_get]) or in the body of a POST, the
    URL, and the parameter set that is URL-encoded. *)
Record request : Type := mkRequest {
  rq_get : bool;
  rq_url : string;
  rq_params : gmap string json
}.

(** What comes back: the opener raises, or the body text is returned
    (the text [_fetch_http] hands back, after any gzip decompression and
    charset decoding).  Cookies and the headers of the request
    ([User-Agent], [Authorization], [Accept-encoding]) are the business
    of the opener and of the wiki and stay inside [server] below. *)
Inductive reply : Type :=
| Refused
| Body (text : string).

(** The attributes of a [MediaWiki] object the methods read and write.
    The three caches start as [None] (class attributes). *)
Record MediaWiki : Type := mkMediaWiki {
  _api_url : string;
  _high_limits : option bool;
  _namespaces : option (gmap Z json);
  _psuedo_namespaces : option (gmap Z json)
}.

Definition MediaWiki_init (api_url : string) : MediaWiki :=
  {| _api_url := api_url;
     _high_limits := None;
     _namespaces := None;
     _psuedo_namespaces := None |}.

(** The object together with every request sent so far, oldest first. *)
Record world : Type := mkWorld {
  self : MediaWiki;
  sent : list request
}.

Definition M (A : Type) : Type := world -> world * outcome A.

Definition ret {A} (a : A) : M A := fun w => (w, Ret a).
Definition raise {A} (e : exn) : M A := fun w => (w, Raise e).
Definition bind {A B} (m : M A) (k : A -> M B) : M B :=
  fun w => match m w with
           | (w', Ret a) => k a w'
           | (w', Raise e) => (w', Raise e)
           end.
Definition lift {A} (o : outcome A) : M A := fun w => (w, o).
Definition get_self : M MediaWiki := fun w => (w, Ret (self w)).
Definition put_self (c : MediaWiki) : M unit :=
  fun w => ({| self := c; sent := sent w |}, Ret tt).

Notation "'let*' x := m 'in' k" := (bind m (fun x => k))
  (at level 10, x name, m at level 100, k at level 200, only parsing).
Notation "m >> k" := (bind m (fun _ => k))
  (at level 100, k at level 200, right associativity, only parsing).

Definition set_api_url (u : string) : M unit :=
  let* c := get_self in
  put_self {| _api_url := u;
              _high_limits := _high_limits c;
              _namespaces := _namespaces c;
              _psuedo_namespaces := _psuedo_namespaces c |}.

Definition set_high_limits (h : option bool) : M unit :=
  let* c := get_self in
  put_self {| _api_url := _api_url c;
              _high_limits := h;
              _namespaces := _namespaces c;
              _psuedo_namespaces := _psuedo_namespaces c |}.

Definition set_namespaces (t : option (gmap Z json)) : M unit :=
  let* c := get_self in
  put_self {| _api_url := _api_url c;
              _high_limits := _high_limits c;
              _namespaces := t;
              _psuedo_namespaces := _psuedo_namespaces c |}.

Definition set_psuedo_namespaces (t : option (gmap Z json)) : M unit :=
  let* c := get_self in
  put_self {| _api_url := _api_url c;
              _high_limits := _high_limits c;
              _namespaces := _namespaces c;
              _psuedo_namespaces := t |}.

(** A dict literal with text keys. *)
Definition dict (members : list (string * json)) : gmap string json :=
  list_to_map members.

(** ** [datetime.strptime] at the format of [parse_date] *)

(** The texts of this model are texts of 8-bit characters.  On ASCII
    text the pattern behaves as modelled here under Python 2 and
    Python 3 alike.  Python 3 matches [\d], and reads with [int()], the
    decimal digits of every script; a text with such digits is beyond
    this model, and the properties of [parse_date] that say which texts
    fail are stated for ASCII texts. *)

Module Strptime.

(** A timestamp: the fields of a [datetime.datetime] (the microsecond
    is always 0 here). *)
Record datetime : Type := mkDatetime {
  year : Z; month : Z; day : Z; hour : Z; minute : Z; second : Z
}.

(** Regular expressions, as far as the directives need them. *)
Inductive regex : Type :=
| OneOf (p : ascii -> bool)
| Then (r1 r2 : regex)
| Or (r1 r2 : regex).

(** Every way [r] matches at the start of [s], as the matched text and
    what is left, in the order a backtracking engine tries them. *)
Fixpoint matches (r : regex) (s : string) : list (string * string) :=
  match r with
  | OneOf p =>
      match s with
      | String c s' => if p c then [(String c "", s')] else []
      | "" => []
      end
  | Then r1 r2 =>
      flat_map (fun m1 =>
                  map (fun m2 => ((fst m1 ++ fst m2)%string, snd m2))
                      (matches r2 (snd m1)))
               (matches r1 s)
  | Or r1 r2 => (matches r1 s ++ matches r2 s)%list
  end.

Definition code (c : ascii) : Z := Z.of_N (N_of_ascii c).

(** [[lo-hi]] *)
Definition range (lo hi : ascii) : regex :=
  OneOf (fun c => (code lo <=? code c) && (code c <=? code hi)).

(** A literal character that has no case. *)
Definition lit (a : ascii) : regex := OneOf (Ascii.eqb a).

(** A literal letter under [IGNORECASE]: itself or its other case. *)
Definition letter (upper lower : ascii) : regex :=
  OneOf (fun c => Ascii.eqb upper c || Ascii.eqb lower c).

(** [\d] on ASCII text: the digits 0 to 9. *)
Definition d : regex := range "0" "9".

(** The table of [TimeRE]. *)
(** [%Y]: [\d\d\d\d] *)
Definition re_Y : regex := Then d (Then d (Then d d)).
(** [%m]: [1[0-2]|0[1-9]|[1-9]] *)
Definition re_m : regex :=
  Or (Then (lit "1") (range "0" "2"))
     (Or (Then (lit "0") (range "1" "9")) (range "1" "9")).
(** [%d]: [3[0-1]|[1-2]\d|0[1-9]|[1-9]| [1-9]] *)
Definition re_d : regex :=
  Or (Then (lit "3") (range "0" "1"))
     (Or (Then (range "1" "2") d)
         (Or (Then (lit "0") (range "1" "9"))
             (Or (range "1" "9") (Then (lit " ") (range "1" "9"))))).
(** [%H]: [2[0-3]|[0-1]\d|\d] *)
Definition re_H : regex :=
  Or (Then (lit "2") (range "0" "3")) (Or (Then (range "0" "1") d) d).
(** [%M]: [[0-5]\d|\d] *)
Definition re_M : regex := Or (Then (range "0" "5") d) d.
(** [%S]: [6[0-1]|[0-5]\d|\d] *)
Definition re_S : regex :=
  Or (Then (lit "6") (range "0" "1")) (Or (Then (range "0" "5") d) d).

(** A group followed by a literal: the group's text and what is left
    after the literal. *)
Definition group (r sep : regex) (s : string) : list (string * string) :=
  flat_map (fun m => map (fun m' => (fst m, snd m')) (matches sep (snd m)))
           (matches r s).

Definition and_then {A B} (p : string -> list (A * string))
    (k : A -> string -> list (B * string)) (s : string)
    : list (B * string) :=
  flat_map (fun m => k (fst m) (snd m)) (p s).

(** The groups found by a match. *)
Record found : Type := mkFound {
  fY : string; fm : string; fd : string;
  fH : string; fM : string; fS : string
}.

(** The pattern compiled from ['%Y-%m-%dT%H:%M:%SZ'] under
    [IGNORECASE]: every match at the start of [s], first the one
    [format_regex.match] returns. *)
Definition format_regex : string -> list (found * string) :=
  and_then (group re_Y (lit "-")) (fun tY =>
  and_then (group re_m (lit "-")) (fun tm =>
  and_then (group re_d (letter "T" "t")) (fun td =>
  and_then (group re_H (lit ":")) (fun tH =>
  and_then (group re_M (lit ":")) (fun tM =>
  and_then (group re_S (letter "Z" "z")) (fun tS rest =>
  [(mkFound tY tm td tH tM tS, rest)])))))).

(** The value of a digit 0 to 9, the decimal digits of ASCII text. *)
Definition digit (c : ascii) : option Z :=
  if (code "0" <=? code c) && (code c <=? code "9")
  then Some (code c - code "0") else None.

Fixpoint digits (acc : Z) (s : string) : option Z :=
  match s with
  | "" => Some acc
  | String c s' => match digit c with
                   | Some n => digits (10 * acc + n) s'
                   | None => None
                   end
  end.

(** [int()] on the text of a group of an ASCII text: digits 0 to 9,
    after a blank in the case of a day. *)
Definition int (s : string) : option Z :=
  match s with
  | "" => None
  | String " " "" => None
  | String " " s' => digits 0 s'
  | _ => digits 0 s
  end.

Definition is_leap (y : Z) : bool :=
  (y mod 4 =? 0) && (negb (y mod 100 =? 0) || (y mod 400 =? 0)).

Definition days_in_month (y m : Z) : Z :=
  if m =? 2 then (if is_leap y then 29 else 28)
  else if (m =? 4) || (m =? 6) || (m =? 9) || (m =? 11) then 30
  else 31.

(** The range checks of the [datetime] constructor. *)
Definition valid (t : datetime) : bool :=
  (1 <=? year t) && (year t <=? 9999)
  && (1 <=? month t) && (month t <=? 12)
  && (1 <=? day t) && (day t <=? days_in_month (year t) (month t))
  && (0 <=? hour t) && (hour t <=? 23)
  && (0 <=? minute t) && (minute t <=? 59)
  && (0 <=? second t) && (second t <=? 59).

Definition convert (f : found) : option datetime :=
  match int (fY f), int (fm f), int (fd f),
        int (fH f), int (fM f), int (fS f) with
  | Some vY, Some vm, Some vd, Some vH, Some vM, Some vS =>
      Some (mkDatetime vY vm vd vH vM vS)
  | _, _, _, _, _, _ => None
  end.

(** [datetime.strptime(data_string, '%Y-%m-%dT%H:%M:%SZ')]: no match,
    text left over after the match, and a field out of range are all
    a [ValueError]. *)
Definition strptime (data_string : string) : outcome datetime :=
  match format_regex data_string with
  | [] => Raise ValueError
  | (f, rest) :: _ =>
      match rest with
      | "" => match convert f with
              | Some t => if valid t then Ret t else Raise ValueError
              | None => Raise ValueError
              end
      | _ => Raise ValueError
      end
  end.

End Strptime.

Definition parse_date (date : string) : outcome Strptime.datetime :=
  Strptime.strptime date.

(** ** The timestamp format, as the specification words it *)

Module Format.

Import Strptime.

(** The character of the last decimal digit of [n]. *)
Definition digit_char (n : Z) : ascii := ascii_of_N (Z.to_N (48 + n mod 10)).

(** [n] on two and on four digits, padded with zeros. *)
Definition pad2 (n : Z) : string :=
  String (digit_char (n / 10)) (String (digit_char n) "").
Definition pad4 (n : Z) : string :=
  String (digit_char (n / 1000)) (String (digit_char (n / 100)) (pad2 n)).

(** The re-serialization of a timestamp as [YYYY-MM-DDTHH:MM:SSZ]. *)
Definition serialize (t : datetime) : string :=
  pad4 (year t) ++ "-" ++ pad2 (month t) ++ "-" ++ pad2 (day t) ++ "T"
  ++ pad2 (hour t) ++ ":" ++ pad2 (minute t) ++ ":" ++ pad2 (second t)
  ++ "Z".

Definition is_digit (c : ascii) : bool :=
  match digit c with Some _ => true | None => false end.

(** The exact format, character by character. *)
Definition shape : list (ascii -> bool) :=
  [is_digit; is_digit; is_digit; is_digit; Ascii.eqb "-";
   is_digit; is_digit; Ascii.eqb "-";
   is_digit; is_digit; Ascii.eqb "T";
   is_digit; is_digit; Ascii.eqb ":";
   is_digit; is_digit; Ascii.eqb ":";
   is_digit; is_digit; Ascii.eqb "Z"].

Fixpoint fits (sh : list (ascii -> bool)) (s : string) : bool :=
  match sh, s with
  | [], "" => true
  | p :: sh', String c s' => p c && fits sh' s'
  | _, _ => false
  end.

(** The number written at [len] characters of [s] from [start]. *)
Definition number (start len : nat) (s : string) : Z :=
  match digits 0 (substring start len s) with
  | Some n => n
  | None => 0
  end.

(** The date and time a text of that shape denotes. *)
Definition denoted (s : string) : datetime :=
  mkDatetime (number 0 4 s) (number 5 2 s) (number 8 2 s)
             (number 11 2 s) (number 14 2 s) (number 17 2 s).

(** A text in the exact format that denotes a valid date and time. *)
Definition exact_format (s : string) : bool :=
  fits shape s && valid (denoted s).







End Format.

(** ** The wikis of the worked examples *)

Module Example.

(** The bodies the example wikis send, with the values they decode to
    (written here as the Python literals of those values). *)
Definition login_success : json :=
  JObj [("login", JObj [("result", JStr "Success")])].
Definition need_token (t : string) : json :=
  JObj [("login", JObj [("result", JStr "NeedToken"); ("token", JStr t)])].
Definition rights (l : list string) : json :=
  JObj [("query", JObj [("userinfo", JObj [("rights", JArr (map JStr l))])])].
Definition siteinfo : json :=
  JObj [("query", JObj [("namespaces", JObj [
    ("-2", JObj [("id", JInt (-2)); ("*", JStr "Media")]);
    ("-1", JObj [("id", JInt (-1)); ("*", JStr "Special")]);
    ("0", JObj [("id", JInt 0); ("*", JStr "")]);
    ("1", JObj [("id", JInt 1); ("*", JStr "Talk")])])])].

Definition json_loads (data : string) : option json :=
  if String.eqb data "{'login': {'result': 'Success'}}"
  then Some login_success
  else if String.eqb data "{'login': {'result': 'NeedToken', 'token': 'b5780b'}}"
  then Some (need_token "b5780b")
  else if String.eqb data "{'login': {'result': 'NeedToken', 'token': ''}}"
  then Some (need_token "")
  else if String.eqb data "{'query': {'userinfo': {'rights': ['read', 'apihighlimits']}}}"
  then Some (rights ["read"; "apihighlimits"])
  else if String.eqb data "{'query': {'namespaces': {...}}}"
  then Some siteinfo
  else if String.eqb data "[]"
  then Some (JArr [])
  else None.

Definition py_int (s : string) : option Z :=
  match s with
  | String "-" s' => option_map Z.opp (Strptime.digits 0 s')
  | _ => Strptime.digits 0 s
  end.

(** A wiki that answers by the action asked of it; a login succeeds
    once a token is sent along. *)
Definition wiki (history : list request) : reply :=
  match last history with
  | None => Refused
  | Some rq =>
      match rq_params rq !! "action" with
      | Some (JStr "login") =>
          match rq_params rq !! "lgtoken" with
          | Some _ => Body "{'login': {'result': 'Success'}}"
          | None => Body "{'login': {'result': 'NeedToken', 'token': 'b5780b'}}"
          end
      | Some (JStr "logout") => Body "[]"
      | Some (JStr "query") =>
          match rq_params rq !! "meta" with
          | Some (JStr "userinfo") =>
              Body "{'query': {'userinfo': {'rights': ['read', 'apihighlimits']}}}"
          | Some (JStr "siteinfo") =>
              match rq_params rq !! "siprop" with
              | Some _ => Body "{'query': {'namespaces': {...}}}"
              | None => Body "<!DOCTYPE html>"
              end
          | _ => Body "<!DOCTYPE html>"
          end
      | _ => Body "<!DOCTYPE html>"
      end
  end.

(** A wiki that asks for a token whatever it is sent. *)
Definition stubborn (_ : list request) : reply :=
  Body "{'login': {'result': 'NeedToken', 'token': 'b5780b'}}".

(** A wiki that asks for a token and hands out an empty one. *)
Definition tokenless (_ : list request) : reply :=
  Body "{'login': {'result': 'NeedToken', 'token': ''}}".

(** A host that cannot be reached. *)
Definition down (_ : list request) : reply := Refused.

(** A site that serves pages, not the API. *)
Definition pages (_ : list request) : reply := Body "<!DOCTYPE html>".

(** A fresh client. *)
Definition fresh (api_url : string) : world :=
  {| self := MediaWiki_init api_url; sent := [] |}.

(** A client that has filled both caches. *)
Definition warm : world :=
  {| self := {| _api_url := "http://wiki.example/w/api.php";
                _high_limits := Some true;
                _namespaces := Some {[ 0 := JStr "" ]};
                _psuedo_namespaces := Some {[ -1 := JStr "Special" ]} |};
     sent := [] |}.

End Example.

(** ** Further example wikis *)

Module Wikis.

Definition general : json :=
  JObj [("query", JObj [("general", JObj [("sitename", JStr "Example")])])].
Definition api_error : json :=
  JObj [("error", JObj [("code", JStr "readapidenied")])].
Definition torn_siteinfo : json :=
  JObj [("query", JObj [("namespaces", JObj [
    ("-1", JObj [("id", JInt (-1)); ("*", JStr "Special")]);
    ("0", JObj [("id", JInt 0); ("*", JStr "")]);
    ("1", JObj [("id", JInt 1)]);
    ("2", JObj [("id", JInt 2); ("*", JStr "User")])])])].

(** The decoder of the examples, with three bodies more. *)
Definition json_loads (data : string) : option json :=
  if String.eqb data "{'query': {'general': {'sitename': 'Example'}}}"
  then Some general
  else if String.eqb data "{'error': {'code': 'readapidenied'}}"
  then Some api_error
  else if String.eqb data "{'query': {'namespaces': {... '1': {'id': 1} ...}}}"
  then Some torn_siteinfo
  else Example.json_loads data.

(** A wiki whose API answers at [api.php] and whose other URLs serve
    pages. *)
Definition site (history : list request) : reply :=
  match last history with
  | Some rq =>
      if Py.occurs "api.php" (rq_url rq)
      then Body "{'query': {'general': {'sitename': 'Example'}}}"
      else Body "<!DOCTYPE html>"
  | None => Refused
  end.

(** A private wiki: every request is answered with an API error. *)
Definition private (_ : list request) : reply :=
  Body "{'error': {'code': 'readapidenied'}}".

(** A wiki whose namespace list has an entry without a name. *)
Definition torn (_ : list request) : reply :=
  Body "{'query': {'namespaces': {... '1': {'id': 1} ...}}}".

(** A fresh client at the API, and one given the URL of a page. *)
Definition client : world := Example.fresh "http://wiki.example/w/api.php".
Definition lost : world :=
  Example.fresh "http://wiki.example/index.php?title=Main".

End Wikis.

(** ** The User-Agent helper *)

Definition __version__ : string := "1.2.0b2".

(** ['{0}/{1} {2}/{3} (+{4})'.format(...)] on texts. *)
Definition build_user_agent (application_name version url : string) : string :=
  application_name ++ "/" ++ version ++ " "
  ++ "python-simplemediawiki" ++ "/" ++ __version__ ++ " (+" ++ url ++ ")".

(** ** The methods of [MediaWiki] *)

Section Client.

(** [json.loads] on a body text; [None] is its [ValueError]. *)
Variable json_loads : string -> option json.

(** [int()] on a text; [None] is its [ValueError]. *)
Variable py_int : string -> option Z.

(** The wiki at the other end: its reply to the last request of a
    history of requests. *)
Variable server : list request -> reply.

(** [int(v)]. *)
Definition int (v : json) : outcome Z :=
  match v with
  | JStr s => match py_int s with
              | Some n => Ret n
              | None => Raise ValueError
              end
  | JInt n => Ret n
  | JBool b => Ret (if b then 1 else 0)
  | _ => Raise TypeError
  end.

Definition _fetch_http (url : string) (params : gmap string json)
    (force_get : bool) : M string :=
  fun w =>
    let params := <["format" := JStr "json"]> params in
    let wire := (sent w ++ [mkRequest force_get url params])%list in
    ({| self := self w; sent := wire |},
     match server wire with
     | Refused => Raise URLError
     | Body data => Ret data
     end).

Definition call (params : gmap string json) : M json :=
  let* c := get_self in
  let* data := _fetch_http (_api_url c) params false in
  match json_loads data with
  | Some v => ret v
  | None => raise ValueError
  end.

(** The inner function of [normalize_api_url]. *)
Definition tester (api_url : string) : M (string * json) :=
  let* data := _fetch_http api_url
                 (dict [("action", JStr "query"); ("meta", JStr "siteinfo")])
                 false in
  match json_loads data with
  | Some data_json => ret (data, data_json)
  | None => ret (data, JNull)
  end.

Definition normalize_api_url : M (option string) :=
  let* c := get_self in
  let* r := tester (_api_url c) in
  if Py.truthy (snd r) then ret (Some (_api_url c))
  else
    match Py.before "index.php" (_api_url c) with
    | Some head =>
        let test_api_url := (head ++ "api.php")%string in
        let* t := tester test_api_url in
        if Py.truthy (snd t)
        then set_api_url test_api_url >> ret (Some test_api_url)
        else ret None
    | None => ret None
    end.

(** The inner function of [login].  [depth] is the number of frames
    the interpreter's stack still admits. *)
Fixpoint do_login (depth : nat) (user passwd : string) (token : json)
    (domain : option string) : M bool :=
  match depth with
  | O => raise RecursionError
  | S depth' =>
      let data := dict [("action", JStr "login");
                        ("lgname", JStr user);
                        ("lgpassword", JStr passwd)] in
      let data := match domain with
                  | Some d => if Py.truthy (JStr d)
                              then <["lgdomain" := JStr d]> data
                              else data
                  | None => data
                  end in
      let data := if Py.truthy token
                  then <["lgtoken" := token]> data
                  else data in
      let* result := call data in
      let* l := lift (Py.item result "login") in
      let* r := lift (Py.item l "result") in
      if Py.eq_str r "Success"
      then set_high_limits None >> ret true
      else
        let* l := lift (Py.item result "login") in
        let* r := lift (Py.item l "result") in
        if Py.eq_str r "NeedToken" && negb (Py.truthy token)
        then
          let* l := lift (Py.item result "login") in
          let* t := lift (Py.item l "token") in
          do_login depth' user passwd t domain
        else ret false
  end.

Definition login (depth : nat) (user passwd : string)
    (domain : option string) : M bool :=
  do_login depth user passwd JNull domain.

Definition logout : M bool :=
  call (dict [("action", JStr "logout")]) >>
  set_high_limits None >>
  ret true.

Definition limits {A} (low high : A) : M A :=
  let* c := get_self in
  match _high_limits c with
  | None =>
      let* result := call (dict [("action", JStr "query");
                                 ("meta", JStr "userinfo");
                                 ("uiprop", JStr "rights")]) in
      let* q := lift (Py.item result "query") in
      let* u := lift (Py.item q "userinfo") in
      let* rights := lift (Py.item u "rights") in
      let* b := lift (Py.contains "apihighlimits" rights) in
      set_high_limits (Some b)
  | Some _ => ret tt
  end >>
  let* c := get_self in
  match _high_limits c with
  | Some true => ret high
  | _ => ret low
  end.

(** [d[k] = v] on a cache attribute that may still be [None]. *)
Definition store (d : option (gmap Z json)) (k : Z) (v : json)
    : outcome (gmap Z json) :=
  match d with
  | Some t => Ret (<[k := v]> t)
  | None => Raise TypeError
  end.

(** [d.update(other)] when [other] may still be [None]. *)
Definition update (d : gmap Z json) (other : option (gmap Z json))
    : outcome (gmap Z json) :=
  match other with
  | Some t => Ret (Py.update d t)
  | None => Raise TypeError
  end.

(** One turn of the loop in [namespaces]. *)
Definition namespaces_step (result nsid : json) : M unit :=
  let* n := lift (int nsid) in
  if 0 <=? n then
    let* q := lift (Py.item result "query") in
    let* ns := lift (Py.item q "namespaces") in
    let* entry := lift (Py.subscript ns nsid) in
    let* name := lift (Py.item entry "*") in
    let* c := get_self in
    let* k := lift (int nsid) in
    let* t := lift (store (_namespaces c) k name) in
    set_namespaces (Some t)
  else
    let* q := lift (Py.item result "query") in
    let* ns := lift (Py.item q "namespaces") in
    let* entry := lift (Py.subscript ns nsid) in
    let* name := lift (Py.item entry "*") in
    let* c := get_self in
    let* k := lift (int nsid) in
    let* t := lift (store (_psuedo_namespaces c) k name) in
    set_psuedo_namespaces (Some t).

Fixpoint for_each (result : json) (nsids : list json) : M unit :=
  match nsids with
  | [] => ret tt
  | nsid :: rest => namespaces_step result nsid >> for_each result rest
  end.

(** The result is the dict returned, or [None] when the attribute
    returned is still unset. *)
Definition namespaces (psuedo : bool) : M (option (gmap Z json)) :=
  let* c := get_self in
  match _namespaces c with
  | None =>
      let* result := call (dict [("action", JStr "query");
                                 ("meta", JStr "siteinfo");
                                 ("siprop", JStr "namespaces")]) in
      set_namespaces (Some ∅) >>
      set_psuedo_namespaces (Some ∅) >>
      let* q := lift (Py.item result "query") in
      let* ns := lift (Py.item q "namespaces") in
      let* nsids := lift (Py.iterate ns) in
      for_each result nsids
  | Some _ => ret tt
  end >>
  let* c := get_self in
  if psuedo then
    let retval := ∅ in
    let* retval := lift (update retval (_namespaces c)) in
    let* retval := lift (update retval (_psuedo_namespaces c)) in
    ret (Some retval)
  else ret (_namespaces c).

(** The request [call] builds from [params] in the world [w]. *)
Definition posted (w : world) (params : gmap string json) : request :=
  mkRequest false (_api_url (self w)) (<["format" := JStr "json"]> params).

(** What [call] makes of the reply to its request. *)
Definition decoded (r : reply) : outcome json :=
  match r with
  | Refused => Raise URLError
  | Body data => match json_loads data with
                 | Some v => Ret v
                 | None => Raise ValueError
                 end
  end.

(** The request [tester] sends to [api_url]. *)
Definition probe (api_url : string) : request :=
  mkRequest false api_url
    (<["format" := JStr "json"]>
       (dict [("action", JStr "query"); ("meta", JStr "siteinfo")])).

(** Whether a probe that got the body [data] counts as answered: the
    body decodes, and to a value that is true ([if data_json:]). *)
Definition answered (data : string) : bool :=
  Py.truthy (match json_loads data with
             | Some data_json => data_json
             | None => JNull
             end).

(** The parameters of the rights lookup in [limits]. *)
Definition rights_query : gmap string json :=
  dict [("action", JStr "query");
        ("meta", JStr "userinfo");
        ("uiprop", JStr "rights")].

(** [result['query']['userinfo']['rights']] *)
Definition rights_of (result : json) : outcome json :=
  match Py.item result "query" with
  | Ret q => match Py.item q "userinfo" with
             | Ret u => Py.item u "rights"
             | Raise e => Raise e
             end
  | Raise e => Raise e
  end.

(** The parameters of the lookup in [namespaces]. *)
Definition siteinfo_query : gmap string json :=
  dict [("action", JStr "query");
        ("meta", JStr "siteinfo");
        ("siprop", JStr "namespaces")].

(** The two namespace tables are set, the first to [content] with
    keys from 0 up, the second to [pseudo] with keys below 0. *)
Definition partitioned (w : world) (content pseudo : gmap Z json) : Prop :=
  _namespaces (self w) = Some content
  /\ _psuedo_namespaces (self w) = Some pseudo
  /\ (forall k, k ∈ dom content -> 0 <= k)
  /\ (forall k, k ∈ dom pseudo -> k < 0).

(** The parameters [do_login] puts together. *)
Definition login_params (user passwd : string) (token : json)
    (domain : option string) : gmap string json :=
  let data := dict [("action", JStr "login");
                    ("lgname", JStr user);
                    ("lgpassword", JStr passwd)] in
  let data := match domain with
              | Some d => if Py.truthy (JStr d)
                          then <["lgdomain" := JStr d]> data
                          else data
              | None => data
              end in
  if Py.truthy token then <["lgtoken" := token]> data else data.

(** A run of [limits] calls, one after the other. *)
Fixpoint limits_each {A} (calls : list (A * A)) : M (list A) :=
  match calls with
  | [] => ret []
  | (low, high) :: rest =>
      let* x := limits low high in
      let* xs := limits_each rest in
      ret (x :: xs)
  end.

(** What one turn of the loop in [namespaces] files for [nsid]: the
    id it reads off [nsid] and the name it finds for it in the reply. *)
Definition entry_of (result nsid : json) : outcome (Z * json) :=
  match int nsid with
  | Ret n =>
      match Py.item result "query" with
      | Ret q =>
          match Py.item q "namespaces" with
          | Ret ns =>
              match Py.subscript ns nsid with
              | Ret entry =>
                  match Py.item entry "*" with
                  | Ret name => Ret (n, name)
                  | Raise e => Raise e
                  end
              | Raise e => Raise e
              end
          | Raise e => Raise e
          end
      | Raise e => Raise e
      end
  | Raise e => Raise e
  end.

(** The ids the loop in [namespaces] runs over:
    [result['query']['namespaces']], iterated. *)
Definition nsids_of (result : json) : outcome (list json) :=
  match Py.item result "query" with
  | Ret q =>
      match Py.item q "namespaces" with
      | Ret ns => Py.iterate ns
      | Raise e => Raise e
      end
  | Raise e => Raise e
  end.

(** * Properties *)

(** ** The transport *)

Lemma call_run params w :
  call params w =
    ({| self := self w; sent := (sent w ++ [posted w params])%list |},
     decoded (server (sent w ++ [posted w params])%list)).
Proof.
  unfold call, decoded, posted, bind, get_self, _fetch_http, ret, raise.
  cbn. destruct (server _) as [|data]; [reflexivity|].
  destruct (json_loads data); reflexivity.
Qed.


(** ** [call] *)

(** C5: whatever the parameter mapping [P] holds, also when it binds
    [format] already, the one request [call P] sends carries a
    parameter set in which [format] is [json]; the other parameters are
    those of [P], and the request is a POST to the endpoint. *)
Theorem call_sends_format_json (P : gmap string json) (w : world) :
  exists rq,
    sent (fst (call P w)) = (sent w ++ [rq])%list
    /\ rq_params rq !! "format" = Some (JStr "json")
    /\ (forall k, k <> "format" -> rq_params rq !! k = P !! k)
    /\ rq_get rq = false
    /\ rq_url rq = _api_url (self w).
Proof.
  exists (posted w P). rewrite call_run. cbn.
  repeat split.
  - apply lookup_insert_eq.
  - intros k Hk. apply lookup_insert_ne. congruence.
Qed.

(** ** [login] and [logout] *)

(** What a run of [do_login] does to the attributes: only the
    permission flag can change, and only when the result is [True]. *)
Lemma do_login_frame depth : forall user passwd token domain w w' r,
  do_login depth user passwd token domain w = (w', r) ->
  _api_url (self w') = _api_url (self w)
  /\ _namespaces (self w') = _namespaces (self w)
  /\ _psuedo_namespaces (self w') = _psuedo_namespaces (self w)
  /\ match r with
     | Ret true => _high_limits (self w') = None
     | _ => _high_limits (self w') = _high_limits (self w)
     end.
Proof.
  induction depth as [|depth IH]; intros user passwd token domain w w' r H.
  - cbn in H. inversion H; subst. auto.
  - cbn [do_login] in H.
    match type of H with bind (call ?d) _ _ = _ => set (data := d) in H end.
    unfold bind at 1 in H. rewrite call_run in H.
    destruct (decoded _) as [result|e]; [|inversion H; subst; cbn; auto].
    unfold bind, lift, ret, set_high_limits, get_self, put_self in H.
    destruct (Py.item result "login") as [l|e]; [|inversion H; subst; cbn; auto].
    destruct (Py.item l "result") as [res|e]; [|inversion H; subst; cbn; auto].
    destruct (Py.eq_str res "Success"); [inversion H; subst; cbn; auto|].
    destruct (Py.eq_str res "NeedToken" && negb (Py.truthy token));
      [|inversion H; subst; cbn; auto].
    destruct (Py.item l "token") as [t|e]; [|inversion H; subst; cbn; auto].
    apply IH in H. cbn in H. exact H.
Qed.


Lemma logout_run w :
  logout w =
    match decoded (server (sent w ++ [posted w (dict [("action", JStr "logout")])])%list) with
    | Ret _ =>
        ({| self := {| _api_url := _api_url (self w);
                       _high_limits := None;
                       _namespaces := _namespaces (self w);
                       _psuedo_namespaces := _psuedo_namespaces (self w) |};
            sent := (sent w ++ [posted w (dict [("action", JStr "logout")])])%list |},
         Ret true)
    | Raise e =>
        ({| self := self w;
            sent := (sent w ++ [posted w (dict [("action", JStr "logout")])])%list |},
         Raise e)
    end.
Proof.
  unfold logout. unfold bind at 1. rewrite call_run.
  destruct (decoded _); reflexivity.
Qed.

(** C1, as amended: a login that succeeds and a logout that returns
    reset the cached permission flag to [None]; the cached namespace
    tables ([_namespaces], [_psuedo_namespaces]) are left as they
    were. *)
Theorem login_logout_reset_flag_only depth user passwd domain w w' :
  (login depth user passwd domain w = (w', Ret true) ->
   _high_limits (self w') = None
   /\ _namespaces (self w') = _namespaces (self w)
   /\ _psuedo_namespaces (self w') = _psuedo_namespaces (self w))
  /\ (forall b, logout w = (w', Ret b) ->
      b = true
      /\ _high_limits (self w') = None
      /\ _namespaces (self w') = _namespaces (self w)
      /\ _psuedo_namespaces (self w') = _psuedo_namespaces (self w)).
Proof.
  split.
  - intros H. apply do_login_frame in H as (_ & Hn & Hp & Hh). auto.
  - intros b H. rewrite logout_run in H.
    destruct (decoded _); inversion H; subst; cbn; auto.
Qed.

(** C10: a login that returns [False] leaves the cached permission
    flag and the cached namespace tables (and the endpoint) exactly as
    they were before the call. *)
Theorem failed_login_keeps_caches depth user passwd domain w w' :
  login depth user passwd domain w = (w', Ret false) ->
  _high_limits (self w') = _high_limits (self w)
  /\ _namespaces (self w') = _namespaces (self w)
  /\ _psuedo_namespaces (self w') = _psuedo_namespaces (self w)
  /\ _api_url (self w') = _api_url (self w).
Proof.
  intros H. apply do_login_frame in H as (Hu & Hn & Hp & Hh). auto.
Qed.


(** One level of [do_login], by the reply it gets. *)
Lemma do_login_run depth user passwd token domain w :
  do_login (S depth) user passwd token domain w =
    let rq := posted w (login_params user passwd token domain) in
    let w1 := {| self := self w; sent := (sent w ++ [rq])%list |} in
    match decoded (server (sent w ++ [rq])%list) with
    | Raise e => (w1, Raise e)
    | Ret result =>
        match Py.item result "login" with
        | Raise e => (w1, Raise e)
        | Ret l =>
            match Py.item l "result" with
            | Raise e => (w1, Raise e)
            | Ret res =>
                if Py.eq_str res "Success"
                then (set_high_limits None >> ret true) w1
                else if Py.eq_str res "NeedToken" && negb (Py.truthy token)
                     then match Py.item l "token" with
                          | Raise e => (w1, Raise e)
                          | Ret t => do_login depth user passwd t domain w1
                          end
                     else (w1, Ret false)
            end
        end
    end.
Proof.
  cbn [do_login]. fold (login_params user passwd token domain).
  unfold bind at 1. rewrite call_run. cbn zeta.
  destruct (decoded _) as [result|e]; [|reflexivity].
  unfold bind, lift. cbn beta.
  destruct (Py.item result "login") as [l|e]; [|reflexivity].
  destruct (Py.item l "result") as [res|e]; [|reflexivity].
  destruct (Py.eq_str res "Success"); [reflexivity|].
  destruct (Py.eq_str res "NeedToken" && negb (Py.truthy token)); [|reflexivity].
  destruct (Py.item l "token"); reflexivity.
Qed.

(** X16: the handshake as the wiki means it: asked for a token and given a
    non-empty one, [login] sends it along in a second request and
    returns by the reply to that one, [True] on [Success] and [False]
    on anything else, a second [NeedToken] included. *)
Lemma login_handshake depth user passwd domain w first l1 t second l2 res2 :
  let rq1 := posted w (login_params user passwd JNull domain) in
  let rq2 := posted w (login_params user passwd t domain) in
  decoded (server (sent w ++ [rq1])%list) = Ret first ->
  Py.item first "login" = Ret l1 ->
  Py.item l1 "result" = Ret (JStr "NeedToken") ->
  Py.item l1 "token" = Ret t ->
  Py.truthy t = true ->
  decoded (server (sent w ++ [rq1; rq2])%list) = Ret second ->
  Py.item second "login" = Ret l2 ->
  Py.item l2 "result" = Ret res2 ->
  exists w',
    login (S (S depth)) user passwd domain w
      = (w', Ret (Py.eq_str res2 "Success"))
    /\ sent w' = (sent w ++ [rq1; rq2])%list.
Proof.
  intros rq1 rq2 H1 Hl1 Hr1 Ht Htruthy H2 Hl2 Hr2.
  unfold login. rewrite do_login_run. cbn zeta. fold rq1.
  rewrite H1, Hl1, Hr1, Ht. cbn [Py.eq_str String.eqb Ascii.eqb Bool.eqb Py.truthy negb andb].
  rewrite do_login_run. cbn zeta. cbn [self sent].
  change (posted _ (login_params user passwd t domain)) with rq2.
  rewrite <- app_assoc. cbn [app].
  rewrite H2, Hl2, Hr2, Htruthy.
  destruct (Py.eq_str res2 "Success").
  - eexists. split; [reflexivity|]. reflexivity.
  - rewrite andb_false_r. eexists. split; reflexivity.
Qed.


(** ** [normalize_api_url] *)

(** The probe [tester] sends to [api_url]. *)
Lemma tester_run api_url w :
  tester api_url w =
    let rq := probe api_url in
    let w1 := {| self := self w; sent := (sent w ++ [rq])%list |} in
    match server (sent w ++ [rq])%list with
    | Refused => (w1, Raise URLError)
    | Body data =>
        (w1, Ret (data, match json_loads data with
                        | Some data_json => data_json
                        | None => JNull
                        end))
    end.
Proof.
  unfold tester, bind, _fetch_http, probe, ret. cbn zeta.
  destruct (server _) as [|data]; [reflexivity|].
  destruct (json_loads data); reflexivity.
Qed.

(** C3, as amended: every probe [normalize_api_url] sends, to the
    configured URL and to the [api.php] candidate alike, goes through
    [_fetch_http] with [force_get] left at [False]: it is a POST whose
    body carries [action=query], [meta=siteinfo] and [format=json]. *)
Theorem normalize_probes_are_posts (w : world) :
  exists probes,
    sent (fst (normalize_api_url w)) = (sent w ++ probes)%list
    /\ (1 <= length probes <= 2)%nat
    /\ Forall (fun rq =>
                 rq_get rq = false
                 /\ rq_params rq = dict [("action", JStr "query");
                                         ("meta", JStr "siteinfo");
                                         ("format", JStr "json")])
              probes.
Proof.
  assert (Hp : forall u,
             rq_get (probe u) = false
             /\ rq_params (probe u) = dict [("action", JStr "query");
                                            ("meta", JStr "siteinfo");
                                            ("format", JStr "json")]).
  { intros u. split; [reflexivity|]. cbn. apply map_eq. intros k.
    unfold dict. cbn.
    destruct (decide (k = "format")) as [->|Hf]; [vm_compute; reflexivity|].
    destruct (decide (k = "action")) as [->|Ha]; [vm_compute; reflexivity|].
    destruct (decide (k = "meta")) as [->|Hm]; [vm_compute; reflexivity|].
    rewrite !lookup_insert_ne by congruence. reflexivity. }
  unfold normalize_api_url. unfold bind at 1, get_self at 1.
  unfold bind at 1. rewrite tester_run. cbn zeta.
  destruct (server _) as [|data].
  { exists [probe (_api_url (self w))]. cbn. repeat split; try lia; auto. }
  cbn [snd].
  destruct (Py.truthy _).
  { exists [probe (_api_url (self w))]. cbn. repeat split; try lia; auto. }
  cbn [self].
  destruct (Py.before "index.php" (_api_url (self w))) as [head|].
  2:{ exists [probe (_api_url (self w))]. cbn. repeat split; try lia; auto. }
  unfold bind at 1. rewrite tester_run. cbn zeta. cbn [self sent].
  exists [probe (_api_url (self w)); probe (head ++ "api.php")%string].
  rewrite <- app_assoc. cbn [app].
  destruct (server _) as [|data2]; cbn; [repeat split; try lia; auto|].
  destruct (Py.truthy _); cbn; repeat split; try lia; auto.
Qed.


(** [normalize_api_url], by the replies the probes get. *)
Lemma normalize_run w :
  normalize_api_url w =
    let u := _api_url (self w) in
    let w1 := {| self := self w; sent := (sent w ++ [probe u])%list |} in
    match server (sent w ++ [probe u])%list with
    | Refused => (w1, Raise URLError)
    | Body data =>
        if answered data then (w1, Ret (Some u))
        else
          match Py.before "index.php" u with
          | None => (w1, Ret None)
          | Some head =>
              let c := (head ++ "api.php")%string in
              let w2 := {| self := self w;
                           sent := (sent w ++ [probe u; probe c])%list |} in
              match server (sent w ++ [probe u; probe c])%list with
              | Refused => (w2, Raise URLError)
              | Body data2 =>
                  if answered data2
                  then ({| self := {| _api_url := c;
                                      _high_limits := _high_limits (self w);
                                      _namespaces := _namespaces (self w);
                                      _psuedo_namespaces :=
                                        _psuedo_namespaces (self w) |};
                           sent := (sent w ++ [probe u; probe c])%list |},
                        Ret (Some c))
                  else (w2, Ret None)
              end
          end
    end.
Proof.
  unfold normalize_api_url. unfold bind at 1, get_self at 1.
  unfold bind at 1. rewrite tester_run. cbn beta zeta.
  destruct (server _) as [|data]; [reflexivity|].
  cbn [snd]. fold (answered data). destruct (answered data); [reflexivity|].
  cbn [self].
  destruct (Py.before _ _) as [head|]; [|reflexivity].
  unfold bind at 1. rewrite tester_run. cbn beta zeta. cbn [self sent].
  rewrite <- app_assoc. cbn [app].
  destruct (server _) as [|data2]; [reflexivity|].
  cbn [snd]. fold (answered data2). destruct (answered data2); reflexivity.
Qed.


(** ** [limits] *)

(** [limits], by the cached flag and, when it is unset, by the reply
    to the rights lookup. *)
Lemma limits_run {A} (low high : A) w :
  limits low high w =
    match _high_limits (self w) with
    | Some b => (w, Ret (if b then high else low))
    | None =>
        let rq := posted w rights_query in
        let w1 := {| self := self w; sent := (sent w ++ [rq])%list |} in
        match decoded (server (sent w ++ [rq])%list) with
        | Raise e => (w1, Raise e)
        | Ret result =>
            match rights_of result with
            | Raise e => (w1, Raise e)
            | Ret rights =>
                match Py.contains "apihighlimits" rights with
                | Raise e => (w1, Raise e)
                | Ret b =>
                    ({| self := {| _api_url := _api_url (self w);
                                   _high_limits := Some b;
                                   _namespaces := _namespaces (self w);
                                   _psuedo_namespaces :=
                                     _psuedo_namespaces (self w) |};
                        sent := (sent w ++ [rq])%list |},
                     Ret (if b then high else low))
                end
            end
        end
    end.
Proof.
  unfold limits. unfold bind at 1, get_self at 1. cbn beta.
  destruct (_high_limits (self w)) as [b|] eqn:Hhl.
  - unfold bind, ret, get_self. rewrite Hhl. destruct b; reflexivity.
  - fold rights_query. unfold bind at 1. unfold bind at 1.
    rewrite call_run. cbn zeta.
    destruct (decoded _) as [result|e]; [|reflexivity].
    unfold rights_of, bind, lift, set_high_limits, get_self, put_self, ret.
    cbn beta.
    destruct (Py.item result "query") as [q|e]; [|reflexivity].
    destruct (Py.item q "userinfo") as [u|e]; [|reflexivity].
    destruct (Py.item u "rights") as [rights|e]; [|reflexivity].
    destruct (Py.contains "apihighlimits" rights) as [b|e]; [|reflexivity].
    cbn. destruct b; reflexivity.
Qed.

(** With the flag cached, a run of [limits] calls sends nothing. *)
Lemma limits_each_cached {A} (calls : list (A * A)) w b :
  _high_limits (self w) = Some b ->
  limits_each calls w
    = (w, Ret (map (fun c => if b then snd c else fst c) calls)).
Proof.
  intros Hb. induction calls as [|[low high] rest IH]; [reflexivity|].
  cbn [limits_each map fst snd]. unfold bind at 1.
  rewrite limits_run, Hb. unfold bind at 1. rewrite IH. reflexivity.
Qed.

(** C6: from a client whose permission flag is unset (a new client, or
    one after a login or logout), a run of [limits] calls sends exactly
    one request, the rights lookup, at its first call, and every call
    returns its [high] when the rights list fetched holds
    [apihighlimits] and its [low] otherwise.  After a login that
    succeeds or a logout, the next [limits] call sends the rights
    lookup anew. *)
Theorem limits_one_lookup :
  (forall (A : Type) (calls : list (A * A)) w result items,
      calls <> [] ->
      _high_limits (self w) = None ->
      decoded (server (sent w ++ [posted w rights_query])%list) = Ret result ->
      rights_of result = Ret (JArr items) ->
      let granted := existsb (fun x => Py.eq_str x "apihighlimits") items in
      exists w',
        limits_each calls w
          = (w', Ret (map (fun c => if granted then snd c else fst c) calls))
        /\ sent w' = (sent w ++ [posted w rights_query])%list)
  /\ (forall (A : Type) depth user passwd domain w0 w (low high : A),
        login depth user passwd domain w0 = (w, Ret true)
        \/ logout w0 = (w, Ret true) ->
        sent (fst (limits low high w))
          = (sent w ++ [posted w rights_query])%list).
Proof.
  split.
  - intros A calls w result items Hne Hhl Hreply Hrights granted.
    destruct calls as [|[low high] rest]; [congruence|].
    cbn [limits_each map fst snd]. unfold bind at 1.
    rewrite limits_run, Hhl. cbn zeta. rewrite Hreply, Hrights.
    cbn [Py.contains]. fold granted.
    unfold bind at 1.
    erewrite limits_each_cached by reflexivity.
    eexists. split; reflexivity.
  - intros A depth user passwd domain w0 w low high H.
    assert (Hhl : _high_limits (self w) = None).
    { destruct H as [H|H].
      - apply do_login_frame in H as (_ & _ & _ & Hh). exact Hh.
      - rewrite logout_run in H.
        destruct (decoded _); inversion H; subst; reflexivity. }
    rewrite limits_run, Hhl. cbn zeta.
    destruct (decoded _) as [result|e]; [|reflexivity].
    destruct (rights_of result) as [rights|e]; [|reflexivity].
    destruct (Py.contains _ rights); reflexivity.
Qed.


(** ** [namespaces] *)

(** One turn of the loop files one entry in the table its sign
    selects, and sends nothing. *)
Lemma namespaces_step_partitioned result nsid w w' u content pseudo :
  namespaces_step result nsid w = (w', Ret u) ->
  partitioned w content pseudo ->
  sent w' = sent w
  /\ exists content' pseudo', partitioned w' content' pseudo'.
Proof.
  intros H (Hc & Hp & Hcs & Hps).
  unfold namespaces_step, bind, lift, get_self, set_namespaces,
    set_psuedo_namespaces, put_self in H. cbn beta in H.
  destruct (int nsid) as [n|e]; [|discriminate].
  destruct (0 <=? n) eqn:Hn.
  - destruct (Py.item result "query") as [q|e]; [|discriminate].
    destruct (Py.item q "namespaces") as [ns|e]; [|discriminate].
    destruct (Py.subscript ns nsid) as [entry|e]; [|discriminate].
    destruct (Py.item entry "*") as [name|e]; [|discriminate].
    rewrite Hc in H. cbn in H. inversion H; subst; clear H. cbn.
    split; [reflexivity|].
    exists (<[n := name]> content), pseudo.
    split; [reflexivity|]. split; [exact Hp|]. split; [|exact Hps].
    intros k Hk. rewrite dom_insert_L in Hk.
    apply elem_of_union in Hk as [Hk|Hk]; [|auto].
    apply elem_of_singleton in Hk. subst. lia.
  - destruct (Py.item result "query") as [q|e]; [|discriminate].
    destruct (Py.item q "namespaces") as [ns|e]; [|discriminate].
    destruct (Py.subscript ns nsid) as [entry|e]; [|discriminate].
    destruct (Py.item entry "*") as [name|e]; [|discriminate].
    rewrite Hp in H. cbn in H. inversion H; subst; clear H. cbn.
    split; [reflexivity|].
    exists content, (<[n := name]> pseudo).
    split; [exact Hc|]. split; [reflexivity|]. split; [exact Hcs|].
    intros k Hk. rewrite dom_insert_L in Hk.
    apply elem_of_union in Hk as [Hk|Hk]; [|auto].
    apply elem_of_singleton in Hk. subst. lia.
Qed.

Lemma for_each_partitioned result nsids : forall w w' u content pseudo,
  for_each result nsids w = (w', Ret u) ->
  partitioned w content pseudo ->
  sent w' = sent w
  /\ exists content' pseudo', partitioned w' content' pseudo'.
Proof.
  induction nsids as [|nsid rest IH]; intros w w' u content pseudo H Hw.
  - cbn in H. inversion H; subst. eauto.
  - cbn [for_each] in H. unfold bind in H.
    destruct (namespaces_step result nsid w) as [w1 [u1|e]] eqn:Hstep;
      [|discriminate].
    eapply namespaces_step_partitioned in Hstep as (Hs1 & c1 & p1 & Hw1);
      [|exact Hw].
    eapply IH in H as (Hs & c' & p' & Hw'); [|exact Hw1].
    split; [congruence|eauto].
Qed.

(** With both tables cached, [namespaces] sends nothing and returns
    the content table, joined with the pseudo table when asked. *)
Lemma namespaces_cached psuedo w content pseudo :
  _namespaces (self w) = Some content ->
  _psuedo_namespaces (self w) = Some pseudo ->
  namespaces psuedo w
    = (w, Ret (Some (if psuedo then pseudo ∪ content else content))).
Proof.
  intros Hc Hp. unfold namespaces, bind, get_self, ret, lift, update.
  cbn beta. rewrite Hc. cbn iota. rewrite Hc, Hp.
  destruct psuedo; [|reflexivity].
  unfold Py.update. rewrite (right_id_L ∅ (∪)). reflexivity.
Qed.

(** C7: from a client whose namespace cache is unset,
    [namespaces(False)] followed by [namespaces(True)] sends one
    request in all, the siteinfo lookup of the first call.  The first
    call returns the content table (keys from 0 up); the second
    returns the union of the content table and the pseudo table (keys
    below 0), so its keys include those of the first. *)
Theorem namespaces_one_fetch w w1 r1 :
  _namespaces (self w) = None ->
  namespaces false w = (w1, Ret r1) ->
  exists content pseudo,
    partitioned w1 content pseudo
    /\ r1 = Some content
    /\ namespaces true w1 = (w1, Ret (Some (pseudo ∪ content)))
    /\ sent w1 = (sent w ++ [posted w siteinfo_query])%list
    /\ dom content ⊆ dom (pseudo ∪ content).
Proof.
  intros Hnone H.
  unfold namespaces in H. unfold bind at 1, get_self at 1 in H.
  cbn beta in H. rewrite Hnone in H. fold siteinfo_query in H.
  unfold bind at 1 in H. unfold bind at 1 in H.
  rewrite call_run in H.
  destruct (decoded _) as [result|e]; [|discriminate].
  unfold bind at 1, set_namespaces at 1, bind at 1, get_self at 1,
    put_self at 1 in H. cbn beta iota in H.
  unfold bind at 1, set_psuedo_namespaces at 1, bind at 1, get_self at 1,
    put_self at 1 in H. cbn beta iota in H. cbn [self sent] in H.
  unfold bind at 1, lift at 1 in H.
  destruct (Py.item result "query") as [q|e]; [|discriminate].
  unfold bind at 1, lift at 1 in H.
  destruct (Py.item q "namespaces") as [ns|e]; [|discriminate].
  unfold bind at 1, lift at 1 in H.
  destruct (Py.iterate ns) as [nsids|e]; [|discriminate].
  match type of H with
  | context [for_each result nsids ?w0] =>
      destruct (for_each result nsids w0) as [w2 [u|e]] eqn:Hloop;
      [|discriminate]
  end.
  eapply for_each_partitioned in Hloop as (Hsent & content & pseudo & Hw2).
  2:{ split; [reflexivity|]. split; [reflexivity|].
      split; intros k Hk; rewrite dom_empty_L in Hk; set_solver. }
  destruct Hw2 as (Hc & Hp & Hcs & Hps).
  unfold bind, get_self, ret in H. rewrite Hc in H.
  inversion H; subst; clear H.
  exists content, pseudo. split; [unfold partitioned; auto|].
  split; [reflexivity|].
  split; [apply (namespaces_cached true); auto|].
  split; [exact Hsent|].
  rewrite dom_union_L. set_solver.
Qed.


(** ** Further properties of [login] and [logout] *)





(** X2: whenever [login] returns a boolean, the reply to the last
    request it sent carries [login.result], and the boolean says whether
    that result is [Success]. *)
Theorem login_answer_is_last_reply depth user passwd domain w w' b :
  login depth user passwd domain w = (w', Ret b) ->
  exists result l r,
    decoded (server (sent w')) = Ret result
    /\ Py.item result "login" = Ret l
    /\ Py.item l "result" = Ret r
    /\ b = Py.eq_str r "Success".
Proof.
  unfold login. generalize JNull as token. revert w.
  induction depth as [|depth IH]; intros w token H; [discriminate H|].
  rewrite do_login_run in H. cbn zeta in H.
  destruct (decoded (server (sent w ++ _)%list)) as [result|e] eqn:E;
    [|discriminate H].
  destruct (Py.item result "login") as [l|e] eqn:El; [|discriminate H].
  destruct (Py.item l "result") as [r|e] eqn:Er; [|discriminate H].
  destruct (Py.eq_str r "Success") eqn:Es.
  { cbn in H. inversion H; subst. cbn [sent]. eauto 10. }
  destruct (Py.eq_str r "NeedToken" && negb (Py.truthy token)).
  2:{ inversion H; subst. cbn [sent]. eauto 10. }
  destruct (Py.item l "token") as [t|e]; [|discriminate H].
  eapply IH. exact H.
Qed.

(** The parameters [do_login] sends do not tell an empty domain from
    none. *)
Lemma login_params_empty_domain user passwd token :
  login_params user passwd token (Some "") = login_params user passwd token None.
Proof. reflexivity. Qed.

Lemma do_login_empty_domain depth : forall user passwd token w,
  do_login depth user passwd token (Some "") w
    = do_login depth user passwd token None w.
Proof.
  induction depth as [|depth IH]; intros user passwd token w; [reflexivity|].
  rewrite !do_login_run. cbn zeta. rewrite login_params_empty_domain.
  destruct (decoded _) as [result|e]; [|reflexivity].
  destruct (Py.item result "login") as [l|e]; [|reflexivity].
  destruct (Py.item l "result") as [r|e]; [|reflexivity].
  destruct (Py.eq_str r "Success"); [reflexivity|].
  destruct (Py.eq_str r "NeedToken" && negb (Py.truthy token)); [|reflexivity].
  destruct (Py.item l "token") as [t|e]; [|reflexivity].
  apply IH.
Qed.

(** X3: an empty domain is no domain: [login] with [domain=''] runs
    exactly as with [domain=None], and the parameter [lgdomain] is sent
    only for a domain that is not empty, with the domain as its value. *)
Theorem login_drops_empty_domain depth user passwd w :
  login depth user passwd (Some "") w = login depth user passwd None w
  /\ (forall token,
        login_params user passwd token None !! "lgdomain" = None)
  /\ (forall token d,
        login_params user passwd token (Some d) !! "lgdomain"
          = if String.eqb d "" then None else Some (JStr d)).
Proof.
  split; [apply do_login_empty_domain|]. split.
  - intros token. unfold login_params.
    destruct (Py.truthy token); vm_compute; reflexivity.
  - intros token d. unfold login_params. cbn [Py.truthy].
    destruct (String.eqb d ""); cbn [negb];
      destruct (Py.truthy token); vm_compute; reflexivity.
Qed.

(** X4: a reply that is a JSON object without a [login] member, as an
    API error is, makes [login] raise [KeyError] after its first request;
    it does not return [False], and the object is left as it was. *)
Theorem login_raises_on_reply_without_login depth user passwd domain w members :
  decoded (server (sent w ++ [posted w (login_params user passwd JNull domain)])%list)
    = Ret (JObj members) ->
  Py.assoc "login" members = None ->
  login (S depth) user passwd domain w
    = ({| self := self w;
          sent := (sent w ++ [posted w (login_params user passwd JNull domain)])%list |},
       Raise KeyError).
Proof.
  intros Hreply Hmissing. unfold login. rewrite do_login_run. cbn zeta.
  rewrite Hreply. unfold Py.item, Py.subscript. rewrite Hmissing. reflexivity.
Qed.



(** ** Further properties of [limits] and [namespaces] *)

(** X6: a rights lookup that fails leaves no trace in the cache: when
    [limits] raises, the permission flag was unset and still is, the
    object is as it was, and the next [limits] call sends the lookup
    again. *)
Theorem limits_failure_is_not_cached {A} (low high : A) w w' e :
  limits low high w = (w', Raise e) ->
  _high_limits (self w) = None
  /\ self w' = self w
  /\ sent w' = (sent w ++ [posted w rights_query])%list
  /\ forall (low' high' : A),
       sent (fst (limits low' high' w'))
         = (sent w' ++ [posted w' rights_query])%list.
Proof.
  intros H. rewrite limits_run in H.
  destruct (_high_limits (self w)) as [b|] eqn:Hhl; [discriminate H|].
  cbn zeta in H.
  assert (Hw' : w' = {| self := self w;
                        sent := (sent w ++ [posted w rights_query])%list |}).
  { destruct (decoded _) as [result|e1]; [|inversion H; reflexivity].
    destruct (rights_of result) as [rights|e1]; [|inversion H; reflexivity].
    destruct (Py.contains _ rights); inversion H; reflexivity. }
  clear H. subst w'. cbn [self sent]. repeat split.
  intros low' high'. rewrite limits_run. cbn [self]. rewrite Hhl. cbn zeta.
  destruct (decoded _) as [result|e1]; [|reflexivity].
  destruct (rights_of result) as [rights|e1]; [|reflexivity].
  destruct (Py.contains _ rights); reflexivity.
Qed.

(** One turn of the loop sends nothing and leaves the flag and the
    endpoint alone; when it raises it has changed nothing at all. *)
Lemma namespaces_step_frame result nsid w w' r :
  namespaces_step result nsid w = (w', r) ->
  sent w' = sent w
  /\ _api_url (self w') = _api_url (self w)
  /\ _high_limits (self w') = _high_limits (self w)
  /\ (forall e, r = Raise e -> w' = w).
Proof.
  intros H.
  unfold namespaces_step, bind, lift, get_self, set_namespaces,
    set_psuedo_namespaces, put_self, store in H. cbn beta in H.
  destruct (int nsid) as [n|e]; [|inversion H; subst; auto].
  destruct (0 <=? n);
    (destruct (Py.item result "query") as [q|e]; [|inversion H; subst; auto];
     destruct (Py.item q "namespaces") as [ns|e]; [|inversion H; subst; auto];
     destruct (Py.subscript ns nsid) as [entry|e]; [|inversion H; subst; auto];
     destruct (Py.item entry "*") as [name|e]; [|inversion H; subst; auto]).
  - destruct (_namespaces (self w)); inversion H; subst; cbn;
      repeat split; auto; discriminate.
  - destruct (_psuedo_namespaces (self w)); inversion H; subst; cbn;
      repeat split; auto; discriminate.
Qed.

Lemma for_each_frame result nsids : forall w w' r,
  for_each result nsids w = (w', r) ->
  sent w' = sent w
  /\ _api_url (self w') = _api_url (self w)
  /\ _high_limits (self w') = _high_limits (self w).
Proof.
  induction nsids as [|nsid rest IH]; intros w w' r H.
  - cbn in H. inversion H; subst. auto.
  - cbn [for_each] in H. unfold bind in H.
    destruct (namespaces_step result nsid w) as [w1 [u1|e]] eqn:Hstep.
    + apply namespaces_step_frame in Hstep as (Hs & Hu & Hh & _).
      apply IH in H as (Hs' & Hu' & Hh'). repeat split; congruence.
    + apply namespaces_step_frame in Hstep as (Hs & Hu & Hh & _).
      inversion H; subst. auto.
Qed.

(** The loop keeps the two tables set, each with keys of its sign,
    however it ends. *)
Lemma for_each_keeps_tables result nsids : forall w w' r content pseudo,
  for_each result nsids w = (w', r) ->
  partitioned w content pseudo ->
  exists content' pseudo', partitioned w' content' pseudo'.
Proof.
  induction nsids as [|nsid rest IH]; intros w w' r content pseudo H Hw.
  - cbn in H. inversion H; subst. eauto.
  - cbn [for_each] in H. unfold bind in H.
    destruct (namespaces_step result nsid w) as [w1 [u1|e]] eqn:Hstep.
    + eapply namespaces_step_partitioned in Hstep as (_ & c1 & p1 & Hw1);
        [|exact Hw].
      eapply IH; eauto.
    + apply namespaces_step_frame in Hstep as (_ & _ & _ & Hsame).
      inversion H; subst. rewrite (Hsame e eq_refl). eauto.
Qed.

(** [namespaces] from an unset cache, up to the end of its loop. *)
Lemma namespaces_fetch_run psuedo w :
  _namespaces (self w) = None ->
  let w0 := {| self := {| _api_url := _api_url (self w);
                          _high_limits := _high_limits (self w);
                          _namespaces := Some ∅;
                          _psuedo_namespaces := Some ∅ |};
               sent := (sent w ++ [posted w siteinfo_query])%list |} in
  namespaces psuedo w =
    match decoded (server (sent w ++ [posted w siteinfo_query])%list) with
    | Raise e =>
        ({| self := self w;
            sent := (sent w ++ [posted w siteinfo_query])%list |}, Raise e)
    | Ret result =>
        match nsids_of result with
        | Raise e => (w0, Raise e)
        | Ret nsids =>
            match for_each result nsids w0 with
            | (w1, Raise e) => (w1, Raise e)
            | (w1, Ret _) =>
                match _namespaces (self w1), _psuedo_namespaces (self w1) with
                | Some content, Some pseudo =>
                    (w1, Ret (Some (if psuedo then pseudo ∪ content
                                    else content)))
                | Some content, None =>
                    if psuedo then (w1, Raise TypeError)
                    else (w1, Ret (Some content))
                | None, _ =>
                    if psuedo then (w1, Raise TypeError) else (w1, Ret None)
                end
            end
        end
    end.
Proof.
  intros Hnone w0. unfold namespaces.
  unfold bind at 1, get_self at 1. cbn beta. rewrite Hnone.
  fold siteinfo_query. unfold bind at 1. unfold bind at 1.
  rewrite call_run.
  destruct (decoded _) as [result|e]; [|reflexivity].
  unfold bind at 1, set_namespaces at 1, bind at 1, get_self at 1,
    put_self at 1. cbn beta iota.
  unfold bind at 1, set_psuedo_namespaces at 1, bind at 1, get_self at 1,
    put_self at 1. cbn beta iota. cbn [self sent _api_url _high_limits
    _namespaces _psuedo_namespaces]. fold w0.
  unfold nsids_of. unfold bind at 1, lift at 1.
  destruct (Py.item result "query") as [q|e]; [|reflexivity].
  unfold bind at 1, lift at 1.
  destruct (Py.item q "namespaces") as [ns|e]; [|reflexivity].
  unfold bind at 1, lift at 1.
  destruct (Py.iterate ns) as [nsids|e]; [|reflexivity].
  destruct (for_each result nsids w0) as [w1 [u|e]]; [|reflexivity].
  unfold bind, get_self, ret, lift, update. cbn beta.
  destruct psuedo.
  - destruct (_namespaces (self w1)) as [content|];
      destruct (_psuedo_namespaces (self w1)) as [pseudo|]; try reflexivity.
    unfold Py.update. rewrite (right_id_L ∅ (∪)). reflexivity.
  - destruct (_namespaces (self w1)) as [content|];
      destruct (_psuedo_namespaces (self w1)) as [pseudo|]; reflexivity.
Qed.

(** X7: every method is at most one round trip, [normalize_api_url] at
    most two: [call] and [logout] send exactly one request; [limits]
    and [namespaces] send one when their cache is unset and none when it
    is set, whether they return or raise. *)
Theorem round_trips w :
  (forall params,
      length (sent (fst (call params w))) = S (length (sent w)))
  /\ length (sent (fst (logout w))) = S (length (sent w))
  /\ (forall (A : Type) (low high : A),
        length (sent (fst (limits low high w)))
          = (length (sent w)
             + match _high_limits (self w) with None => 1 | Some _ => 0 end)%nat)
  /\ (forall psuedo,
        length (sent (fst (namespaces psuedo w)))
          = (length (sent w)
             + match _namespaces (self w) with None => 1 | Some _ => 0 end)%nat).
Proof.
  split; [|split; [|split]].
  - intros params. rewrite call_run. cbn. rewrite length_app. cbn. lia.
  - rewrite logout_run. destruct (decoded _); cbn; rewrite length_app; cbn; lia.
  - intros A low high. rewrite limits_run.
    destruct (_high_limits (self w)); [cbn; lia|]. cbn zeta.
    destruct (decoded _) as [result|e]; [|cbn; rewrite length_app; cbn; lia].
    destruct (rights_of result) as [rights|e];
      [|cbn; rewrite length_app; cbn; lia].
    destruct (Py.contains _ rights); cbn; rewrite length_app; cbn; lia.
  - intros psuedo. destruct (_namespaces (self w)) as [content|] eqn:Hns.
    + unfold namespaces, bind, get_self, ret, lift, update. cbn beta.
      rewrite Hns. cbn iota. rewrite Hns.
      destruct psuedo; [|cbn; lia].
      destruct (_psuedo_namespaces (self w)); cbn; lia.
    + rewrite (namespaces_fetch_run psuedo w Hns). cbn zeta.
      destruct (decoded _) as [result|e]; [|cbn; rewrite length_app; cbn; lia].
      destruct (nsids_of result) as [nsids|e];
        [|cbn; rewrite length_app; cbn; lia].
      destruct (for_each result nsids _) as [w1 r] eqn:Hloop.
      apply for_each_frame in Hloop as (Hs & _ & _). cbn [sent] in Hs.
      assert (Hlen : length (sent w1) = (length (sent w) + 1)%nat)
        by (rewrite Hs, length_app; cbn; lia).
      destruct r as [u|e]; [|cbn; exact Hlen].
      destruct (_namespaces (self w1)); destruct (_psuedo_namespaces (self w1));
        destruct psuedo; cbn; exact Hlen.
Qed.


(** X8: the two caches do not interfere, and neither method moves the
    endpoint: [limits] leaves both namespace tables as they were,
    [namespaces] leaves the permission flag as it was, whether they
    return or raise. *)
Theorem caches_do_not_interfere w :
  (forall (A : Type) (low high : A),
      _namespaces (self (fst (limits low high w))) = _namespaces (self w)
      /\ _psuedo_namespaces (self (fst (limits low high w)))
         = _psuedo_namespaces (self w)
      /\ _api_url (self (fst (limits low high w))) = _api_url (self w))
  /\ (forall psuedo,
        _high_limits (self (fst (namespaces psuedo w))) = _high_limits (self w)
        /\ _api_url (self (fst (namespaces psuedo w))) = _api_url (self w)).
Proof.
  split.
  - intros A low high. rewrite limits_run.
    destruct (_high_limits (self w)); [auto|]. cbn zeta.
    destruct (decoded _) as [result|e]; [|auto].
    destruct (rights_of result) as [rights|e]; [|auto].
    destruct (Py.contains _ rights); auto.
  - intros psuedo. destruct (_namespaces (self w)) as [content|] eqn:Hns.
    + unfold namespaces, bind, get_self, ret, lift, update. cbn beta.
      rewrite Hns. cbn iota. rewrite Hns.
      destruct psuedo; [|auto].
      destruct (_psuedo_namespaces (self w)); auto.
    + rewrite (namespaces_fetch_run psuedo w Hns). cbn zeta.
      destruct (decoded _) as [result|e]; [|auto].
      destruct (nsids_of result) as [nsids|e]; [|auto].
      destruct (for_each result nsids _) as [w1 r] eqn:Hloop.
      apply for_each_frame in Hloop as (_ & Hu & Hh). cbn in Hu, Hh.
      destruct r as [u|e]; [|auto].
      destruct (_namespaces (self w1)); destruct (_psuedo_namespaces (self w1));
        destruct psuedo; auto.
Qed.

(** X9: a failed fetch is cached all the same.  When the reply to the
    siteinfo lookup decodes but [namespaces] then raises (an id that is
    no integer, an entry without a name, a reply of another shape), the
    two tables are left set, with the entries filed before the
    exception; every later call answers from them, sending nothing and
    raising nothing.  When the lookup itself raises, the object is left
    as it was. *)
Theorem namespaces_failure_is_cached psuedo w w' e :
  _namespaces (self w) = None ->
  namespaces psuedo w = (w', Raise e) ->
  (forall result,
      decoded (server (sent w ++ [posted w siteinfo_query])%list) = Ret result ->
      exists content pseudo,
        partitioned w' content pseudo
        /\ forall psuedo',
             namespaces psuedo' w'
               = (w', Ret (Some (if psuedo' then pseudo ∪ content
                                 else content))))
  /\ (forall e',
        decoded (server (sent w ++ [posted w siteinfo_query])%list) = Raise e' ->
        self w' = self w /\ e = e').
Proof.
  intros Hnone H. rewrite (namespaces_fetch_run psuedo w Hnone) in H.
  cbn zeta in H. split.
  - intros result Hreply. rewrite Hreply in H.
    assert (Hset : exists content pseudo, partitioned w' content pseudo).
    { assert (H0 : partitioned
                {| self := {| _api_url := _api_url (self w);
                              _high_limits := _high_limits (self w);
                              _namespaces := Some ∅;
                              _psuedo_namespaces := Some ∅ |};
                   sent := (sent w ++ [posted w siteinfo_query])%list |} ∅ ∅).
      { split; [reflexivity|]. split; [reflexivity|].
        split; intros k Hk; rewrite dom_empty_L in Hk; set_solver. }
      destruct (nsids_of result) as [nsids|e1]; [|inversion H; subst; eauto].
      destruct (for_each result nsids _) as [w1 r] eqn:Hloop.
      eapply for_each_keeps_tables in Hloop as (c1 & p1 & Hw1); [|exact H0].
      destruct r as [u|e1]; [|inversion H; subst; eauto].
      destruct Hw1 as (Hc & Hp & _). rewrite Hc, Hp in H. discriminate H. }
    destruct Hset as (content & pseudo & Hw').
    exists content, pseudo. split; [exact Hw'|].
    intros psuedo'. destruct Hw' as (Hc & Hp & _).
    apply namespaces_cached; assumption.
  - intros e' Hreply. rewrite Hreply in H. inversion H; subst. auto.
Qed.

(** One turn of the loop files the entry of its id in the table of the
    id's sign. *)
Lemma namespaces_step_files result nsid w w' u content pseudo :
  namespaces_step result nsid w = (w', Ret u) ->
  partitioned w content pseudo ->
  exists n name,
    entry_of result nsid = Ret (n, name)
    /\ partitioned w'
         (if 0 <=? n then <[n := name]> content else content)
         (if 0 <=? n then pseudo else <[n := name]> pseudo).
Proof.
  intros H (Hc & Hp & Hcs & Hps).
  unfold namespaces_step, bind, lift, get_self, set_namespaces,
    set_psuedo_namespaces, put_self in H. cbn beta in H.
  unfold entry_of.
  destruct (int nsid) as [n|e]; [|discriminate].
  destruct (0 <=? n) eqn:Hn;
    (destruct (Py.item result "query") as [q|e]; [|discriminate];
     destruct (Py.item q "namespaces") as [ns|e]; [|discriminate];
     destruct (Py.subscript ns nsid) as [entry|e]; [|discriminate];
     destruct (Py.item entry "*") as [name|e]; [|discriminate]).
  - rewrite Hc in H. cbn in H. inversion H; subst; clear H.
    exists n, name. rewrite Hn. split; [reflexivity|].
    split; [reflexivity|]. split; [exact Hp|]. split; [|exact Hps].
    intros k Hk. rewrite dom_insert_L in Hk.
    apply elem_of_union in Hk as [Hk|Hk]; [|auto].
    apply elem_of_singleton in Hk. subst. lia.
  - rewrite Hp in H. cbn in H. inversion H; subst; clear H.
    exists n, name. rewrite Hn. split; [reflexivity|].
    split; [exact Hc|]. split; [reflexivity|]. split; [exact Hcs|].
    intros k Hk. rewrite dom_insert_L in Hk.
    apply elem_of_union in Hk as [Hk|Hk]; [|auto].
    apply elem_of_singleton in Hk. subst. lia.
Qed.

(** The loop files an entry for every id it runs over, and nothing
    else. *)
Lemma for_each_files result nsids : forall w w' u content pseudo,
  for_each result nsids w = (w', Ret u) ->
  partitioned w content pseudo ->
  exists content' pseudo',
    partitioned w' content' pseudo'
    /\ dom content ⊆ dom content' /\ dom pseudo ⊆ dom pseudo'
    /\ (forall nsid, In nsid nsids ->
          exists n name,
            entry_of result nsid = Ret (n, name)
            /\ n ∈ dom (if 0 <=? n then content' else pseudo'))
    /\ (forall n name,
          (if 0 <=? n then content' else pseudo') !! n = Some name ->
          (if 0 <=? n then content else pseudo) !! n = Some name
          \/ exists nsid, In nsid nsids /\ entry_of result nsid = Ret (n, name)).
Proof.
  induction nsids as [|nsid rest IH]; intros w w' u content pseudo H Hw.
  - cbn in H. inversion H; subst. exists content, pseudo.
    split; [exact Hw|]. split; [reflexivity|]. split; [reflexivity|].
    split; [intros nsid []|]. intros n name Hl. left. exact Hl.
  - cbn [for_each] in H. unfold bind in H.
    destruct (namespaces_step result nsid w) as [w1 [u1|e]] eqn:Hstep;
      [|discriminate].
    eapply namespaces_step_files in Hstep as (n0 & name0 & Hentry & Hw1);
      [|exact Hw].
    eapply IH in H as (c' & p' & Hw' & Hdc & Hdp & Hall & Honly);
      [|exact Hw1].
    exists c', p'. split; [exact Hw'|].
    split; [destruct (0 <=? n0); [rewrite dom_insert_L in Hdc|]; set_solver|].
    split; [destruct (0 <=? n0); [|rewrite dom_insert_L in Hdp]; set_solver|].
    split.
    + intros x [<-|Hx]; [|auto].
      exists n0, name0. split; [exact Hentry|].
      destruct (0 <=? n0);
        [rewrite dom_insert_L in Hdc|rewrite dom_insert_L in Hdp]; set_solver.
    + intros n name Hl. destruct (Honly n name Hl) as [Hold|(x & Hx & Hex)].
      2:{ right. exists x. split; [right; exact Hx|exact Hex]. }
      destruct (decide (n = n0)) as [->|Hne].
      * right. exists nsid. split; [left; reflexivity|].
        destruct (0 <=? n0); rewrite lookup_insert_eq in Hold;
          inversion Hold; subst; exact Hentry.
      * left. destruct (0 <=? n) eqn:Hn; destruct (0 <=? n0) eqn:Hn0;
          try exact Hold; rewrite lookup_insert_ne in Hold by congruence;
          exact Hold.
Qed.

(** X10: a fetch that returns has filed the reply's entries and nothing
    else: every id the reply lists is a key of the table of its sign,
    and every name in the two tables is the name of an entry the reply
    lists under that id. *)
Theorem namespaces_files_every_entry w w1 r1 :
  _namespaces (self w) = None ->
  namespaces false w = (w1, Ret r1) ->
  exists result nsids content pseudo,
    decoded (server (sent w ++ [posted w siteinfo_query])%list) = Ret result
    /\ nsids_of result = Ret nsids
    /\ partitioned w1 content pseudo
    /\ r1 = Some content
    /\ (forall nsid, In nsid nsids ->
          exists n name,
            entry_of result nsid = Ret (n, name)
            /\ n ∈ dom (if 0 <=? n then content else pseudo))
    /\ (forall n name,
          (if 0 <=? n then content else pseudo) !! n = Some name ->
          exists nsid, In nsid nsids /\ entry_of result nsid = Ret (n, name)).
Proof.
  intros Hnone H. rewrite (namespaces_fetch_run false w Hnone) in H.
  cbn zeta in H.
  destruct (decoded _) as [result|e] eqn:Hreply; [|discriminate H].
  destruct (nsids_of result) as [nsids|e] eqn:Hids; [|discriminate H].
  destruct (for_each result nsids _) as [w2 [u|e]] eqn:Hloop; [|discriminate H].
  eapply for_each_files in Hloop
    as (content & pseudo & Hw2 & _ & _ & Hall & Honly).
  2:{ split; [reflexivity|]. split; [reflexivity|].
      split; intros k Hk; rewrite dom_empty_L in Hk; set_solver. }
  pose proof Hw2 as (Hc & Hp & _). rewrite Hc, Hp in H.
  inversion H; subst; clear H.
  exists result, nsids, content, pseudo.
  split; [reflexivity|]. split; [exact Hids|]. split; [exact Hw2|].
  split; [reflexivity|]. split; [exact Hall|].
  intros n name Hl. destruct (Honly n name Hl) as [Hempty|Hfrom]; [|exact Hfrom].
  destruct (0 <=? n); rewrite lookup_empty in Hempty; discriminate.
Qed.


(** ** Further properties of [normalize_api_url] *)

Lemma prefix_split (sep s : string) :
  String.prefix sep s = true -> exists rest, s = (sep ++ rest)%string.
Proof.
  revert s. induction sep as [|c sep IH]; intros s H.
  - exists s. reflexivity.
  - destruct s as [|c' s]; [discriminate H|]. cbn in H.
    destruct (ascii_dec c c') as [<-|]; [|discriminate H].
    apply IH in H as [rest ->]. exists rest. reflexivity.
Qed.

(** The text [before] returns is what stands in front of an occurrence
    of the separator. *)
Lemma before_split (sep : string) : forall s head,
  Py.before sep s = Some head ->
  exists rest, s = (head ++ sep ++ rest)%string.
Proof.
  induction s as [|c s IH]; intros head H.
  - cbn [Py.before] in H.
    destruct (String.prefix sep "") eqn:Hp; [|discriminate H].
    inversion H; subst. apply prefix_split in Hp as [rest Hrest].
    exists rest. exact Hrest.
  - cbn [Py.before] in H.
    destruct (String.prefix sep (String c s)) eqn:Hp.
    + inversion H; subst. apply prefix_split in Hp as [rest Hrest].
      exists rest. exact Hrest.
    + destruct (Py.before sep s) as [h|] eqn:Hb; [|discriminate H].
      cbn in H. inversion H; subst.
      destruct (IH h eq_refl) as [rest ->]. exists rest. reflexivity.
Qed.

(** X11: a URL that [normalize_api_url] returns is one that answered,
    and it is the endpoint from then on: the last request sent is the
    probe of that URL, its reply is a body that decodes to a value that
    is true, and the URL is the configured one or the configured one
    with everything from its first [index.php] on replaced by
    [api.php]. *)
Theorem normalize_returns_answering_url w w' u :
  normalize_api_url w = (w', Ret (Some u)) ->
  _api_url (self w') = u
  /\ (exists history data,
        sent w' = (history ++ [probe u])%list
        /\ server (sent w') = Body data
        /\ answered data = true)
  /\ (u = _api_url (self w)
      \/ exists head rest,
           _api_url (self w) = (head ++ "index.php" ++ rest)%string
           /\ Py.before "index.php" (_api_url (self w)) = Some head
           /\ u = (head ++ "api.php")%string).
Proof.
  intros H. rewrite normalize_run in H. cbn zeta in H.
  destruct (server (sent w ++ [_])%list) as [|data] eqn:E1; [discriminate H|].
  destruct (answered data) eqn:A1.
  { inversion H; subst; clear H. cbn [self sent].
    split; [reflexivity|]. split; [|left; reflexivity].
    exists (sent w), data. auto. }
  destruct (Py.before _ _) as [head|] eqn:Hb; [|discriminate H].
  destruct (server (sent w ++ [_; _])%list) as [|data2] eqn:E2;
    [discriminate H|].
  destruct (answered data2) eqn:A2; [|discriminate H].
  inversion H; subst; clear H. cbn [self sent _api_url].
  split; [reflexivity|]. split.
  - exists (sent w ++ [probe (_api_url (self w))])%list, data2.
    rewrite <- app_assoc. cbn [app]. auto.
  - right. destruct (before_split _ _ _ Hb) as [rest Hrest].
    exists head, rest. auto.
Qed.

(** X12: [normalize_api_url] touches nothing but the endpoint, and the
    endpoint only to set it to the URL it returns: the permission flag
    and both namespace tables are as they were, and when the result is
    [None] or an exception the endpoint is as it was. *)
Theorem normalize_touches_only_endpoint w :
  _high_limits (self (fst (normalize_api_url w))) = _high_limits (self w)
  /\ _namespaces (self (fst (normalize_api_url w))) = _namespaces (self w)
  /\ _psuedo_namespaces (self (fst (normalize_api_url w)))
     = _psuedo_namespaces (self w)
  /\ _api_url (self (fst (normalize_api_url w)))
     = match snd (normalize_api_url w) with
       | Ret (Some u) => u
       | _ => _api_url (self w)
       end.
Proof.
  rewrite normalize_run. cbn zeta.
  destruct (server (sent w ++ [_])%list) as [|data]; [cbn; auto|].
  destruct (answered data); [cbn; auto|].
  destruct (Py.before _ _) as [head|]; [|cbn; auto].
  destruct (server (sent w ++ [_; _])%list) as [|data2]; [cbn; auto|].
  destruct (answered data2); cbn; auto.
Qed.

(** X13: the fallback at work.  When the configured URL holds
    [index.php], its probe gets a body that does not count as an answer
    and the probe of the [api.php] candidate is answered, the candidate
    is returned and stored, and the next [call] goes to the candidate. *)
Theorem normalize_switches_endpoint w head data data2 :
  Py.before "index.php" (_api_url (self w)) = Some head ->
  server (sent w ++ [probe (_api_url (self w))])%list = Body data ->
  answered data = false ->
  server (sent w ++ [probe (_api_url (self w));
                     probe (head ++ "api.php")%string])%list = Body data2 ->
  answered data2 = true ->
  snd (normalize_api_url w) = Ret (Some (head ++ "api.php")%string)
  /\ _api_url (self (fst (normalize_api_url w))) = (head ++ "api.php")%string
  /\ forall params,
       last (sent (fst (call params (fst (normalize_api_url w)))))
         = Some (mkRequest false (head ++ "api.php")%string
                   (<["format" := JStr "json"]> params)).
Proof.
  intros Hb E1 A1 E2 A2. rewrite normalize_run. cbn zeta.
  rewrite E1, A1, Hb, E2, A2. cbn [fst snd self _api_url].
  split; [reflexivity|]. split; [reflexivity|].
  intros params. rewrite call_run. cbn [fst sent]. rewrite last_snoc.
  reflexivity.
Qed.

End Client.

(** ** The login handshake against a wiki that hands out an empty token *)

Lemma tokenless_recursion depth : forall user passwd token domain w,
  Py.truthy token = false ->
  let run := do_login Example.json_loads Example.tokenless
               depth user passwd token domain w in
  snd run = Raise RecursionError
  /\ length (sent (fst run)) = (length (sent w) + depth)%nat.
Proof.
  induction depth as [|depth IH]; intros user passwd token domain w Htoken.
  - cbn. split; [reflexivity|lia].
  - cbn zeta. rewrite do_login_run. cbn zeta.
    change (decoded Example.json_loads (Example.tokenless _))
      with (Ret (A:=json) (Example.need_token "")).
    cbn [Py.item Py.subscript Example.need_token Py.assoc].
    change (Py.eq_str (JStr "NeedToken") "Success") with false.
    change (Py.eq_str (JStr "NeedToken") "NeedToken") with true.
    rewrite Htoken. cbn [negb andb].
    cbn -[do_login].
    specialize (IH user passwd (JStr "") domain
      {| self := self w;
         sent := (sent w ++ [posted w (login_params user passwd token domain)])%list |}
      eq_refl).
    cbn zeta in IH. destruct IH as [IH1 IH2]. split; [exact IH1|].
    rewrite IH2. cbn [sent]. rewrite length_app. cbn. lia.
Qed.

(** C2, where the code departs from it: against a wiki that answers
    every login request with [NeedToken] and an empty token, [login]
    never returns; it sends one request per level of recursion, as many
    as the interpreter's stack admits, and ends in [RecursionError]. *)
Theorem login_recurses_on_empty_token depth user passwd domain w :
  let run := login Example.json_loads Example.tokenless
               depth user passwd domain w in
  snd run = Raise RecursionError
  /\ length (sent (fst run)) = (length (sent w) + depth)%nat.
Proof.
  apply tokenless_recursion. reflexivity.
Qed.

(** ** [parse_date] *)

Import Strptime Format.

Lemma append_assoc (a b c : string) :
  ((a ++ b) ++ c = a ++ (b ++ c))%string.
Proof.
  induction a as [|x a IH]; [reflexivity|].
  change (String x ((a ++ b) ++ c) = String x (a ++ (b ++ c)))%string.
  f_equal. exact IH.
Qed.










(** A property of the integers of a short range holds once it holds of
    each. *)
Lemma range_cases (P : Z -> Prop) (lo : Z) (n : nat) :
  (forall k, (k < n)%nat -> P (lo + Z.of_nat k)) ->
  forall v, lo <= v < lo + Z.of_nat n -> P v.
Proof.
  intros H v Hv.
  replace v with (lo + Z.of_nat (Z.to_nat (v - lo))) by lia.
  apply H. lia.
Qed.

Ltac by_cases v lo n :=
  pattern v; apply (range_cases _ lo n); [|lia];
  let k := fresh "k" in
  let Hk := fresh "Hk" in
  intros k Hk; repeat (destruct k as [|k]; [reflexivity|]); lia.

Lemma digit_digit_char (n : Z) : digit (digit_char n) = Some (n mod 10).
Proof.
  unfold digit_char. pose proof (Z.mod_pos_bound n 10 ltac:(lia)) as Hm.
  revert Hm. generalize (n mod 10). intros m Hm.
  by_cases m 0 10%nat.
Qed.

Lemma matches_digit (n : Z) (rest : string) :
  matches d (String (digit_char n) rest) = [(String (digit_char n) "", rest)].
Proof.
  pose proof (digit_digit_char n) as H. unfold digit in H.
  unfold d, range. cbn [matches].
  destruct ((code "0" <=? code (digit_char n)) && (code (digit_char n) <=? code "9"));
    [reflexivity|discriminate].
Qed.

Lemma matches_then_one (r1 r2 : regex) s t1 s1 t2 s2 :
  matches r1 s = [(t1, s1)] ->
  matches r2 s1 = [(t2, s2)] ->
  matches (Then r1 r2) s = [((t1 ++ t2)%string, s2)].
Proof. intros H1 H2. cbn [matches]. rewrite H1. cbn. rewrite H2. reflexivity. Qed.

Lemma group_Y (y : Z) (rest : string) :
  group re_Y (lit "-") (pad4 y ++ String "-" rest) = [(pad4 y, rest)].
Proof.
  unfold group, re_Y.
  erewrite (matches_then_one d (Then d (Then d d))).
  2:{ apply matches_digit. }
  2:{ eapply matches_then_one; [apply matches_digit|].
      eapply matches_then_one; apply matches_digit. }
  reflexivity.
Qed.

Lemma group_m (v : Z) (rest : string) :
  1 <= v <= 12 ->
  group re_m (lit "-") (pad2 v ++ String "-" rest) = [(pad2 v, rest)].
Proof. intros Hv. revert rest. by_cases v 1 12%nat. Qed.

Lemma group_d (v : Z) (rest : string) :
  1 <= v <= 31 ->
  group re_d (letter "T" "t") (pad2 v ++ String "T" rest) = [(pad2 v, rest)].
Proof. intros Hv. revert rest. by_cases v 1 31%nat. Qed.

Lemma group_H (v : Z) (rest : string) :
  0 <= v <= 23 ->
  group re_H (lit ":") (pad2 v ++ String ":" rest) = [(pad2 v, rest)].
Proof. intros Hv. revert rest. by_cases v 0 24%nat. Qed.

Lemma group_M (v : Z) (rest : string) :
  0 <= v <= 59 ->
  group re_M (lit ":") (pad2 v ++ String ":" rest) = [(pad2 v, rest)].
Proof. intros Hv. revert rest. by_cases v 0 60%nat. Qed.

Lemma group_S (v : Z) (rest : string) :
  0 <= v <= 59 ->
  group re_S (letter "Z" "z") (pad2 v ++ String "Z" rest) = [(pad2 v, rest)].
Proof. intros Hv. revert rest. by_cases v 0 60%nat. Qed.

Lemma int_pad2 (v : Z) : 0 <= v <= 59 -> int (pad2 v) = Some v.
Proof. intros Hv. by_cases v 0 60%nat. Qed.

Lemma int_digits (c : ascii) (s : string) (n : Z) :
  digit c = Some n -> int (String c s) = digits 0 (String c s).
Proof.
  intros H.
  destruct c as [[] [] [] [] [] [] [] []]; cbv in H; try discriminate H;
    reflexivity.
Qed.

Lemma int_pad4 (y : Z) : 0 <= y <= 9999 -> int (pad4 y) = Some y.
Proof.
  intros Hy. unfold pad4, pad2.
  rewrite (int_digits _ _ _ (digit_digit_char _)).
  cbn [digits]. rewrite !digit_digit_char. f_equal.
  assert (E1 : y / 1000 = y / 10 / 10 / 10)
    by (rewrite !Z.div_div by lia; reflexivity).
  assert (E2 : y / 100 = y / 10 / 10)
    by (rewrite !Z.div_div by lia; reflexivity).
  rewrite E1, E2. Z.div_mod_to_equations. lia.
Qed.

(** The format spelled out. *)
Lemma serialize_eq (t : datetime) :
  serialize t =
    (pad4 (year t) ++ String "-" (pad2 (month t) ++ String "-" (pad2 (day t)
     ++ String "T" (pad2 (hour t) ++ String ":" (pad2 (minute t)
     ++ String ":" (pad2 (second t) ++ String "Z" ""))))))%string.
Proof. reflexivity. Qed.

(** A valid timestamp, serialized, is parsed back to itself. *)
Lemma strptime_serialize (t : datetime) :
  valid t = true -> strptime (serialize t) = Ret t.
Proof.
  intros Hvalid. pose proof Hvalid as Hv. unfold valid in Hv.
  repeat (apply andb_prop in Hv as [Hv ?]).
  assert (Hday : day t <= 31).
  { assert (days_in_month (year t) (month t) <= 31); [|lia].
    unfold days_in_month.
    repeat match goal with |- context [if ?b then _ else _] => destruct b end;
      lia. }
  unfold strptime, format_regex, and_then. rewrite serialize_eq.
  rewrite group_Y. cbn [flat_map fst snd].
  rewrite group_m by lia. cbn [flat_map fst snd].
  rewrite group_d by lia. cbn [flat_map fst snd].
  rewrite group_H by lia. cbn [flat_map fst snd].
  rewrite group_M by lia. cbn [flat_map fst snd].
  rewrite group_S by lia. cbn [flat_map fst snd app].
  unfold convert. cbn [fY fm fd fH fM fS].
  rewrite int_pad4 by lia. rewrite !int_pad2 by lia.
  destruct t. cbn in *. rewrite Hvalid. reflexivity.
Qed.

Lemma digit_inv (c : ascii) (n : Z) :
  digit c = Some n -> 0 <= n <= 9 /\ c = digit_char n.
Proof.
  intros H.
  destruct c as [[] [] [] [] [] [] [] []]; cbv in H; try discriminate H;
    inversion H; subst n; (split; [lia|reflexivity]).
Qed.

Lemma digit_char_mod (a b : Z) : a mod 10 = b mod 10 -> digit_char a = digit_char b.
Proof. unfold digit_char. intros ->. reflexivity. Qed.

(** A text of the exact shape is the serialization of what it denotes. *)
Lemma fits_serialize (s : string) :
  fits shape s = true -> serialize (denoted s) = s.
Proof.
  unfold shape. intros H.
  do 20 (destruct s as [|? s]; [discriminate H|];
         cbn [fits] in H; apply andb_prop in H as [? H]).
  destruct s; [clear H|discriminate H].
  repeat match goal with
         | E : Ascii.eqb _ _ = true |- _ => apply Ascii.eqb_eq in E; subst
         | E : is_digit ?c = true |- _ =>
             unfold is_digit in E;
             let n := fresh "n" in
             let En := fresh "En" in
             destruct (digit c) as [n|] eqn:En; [clear E|discriminate E];
             apply digit_inv in En as [? ->]
         end.
  rewrite serialize_eq. unfold denoted, number.
  cbn [substring digits year month day hour minute second].
  rewrite !digit_digit_char.
  cbn [year month day hour minute second].
  unfold pad4, pad2. cbv [String.append].
  repeat match goal with
         | |- String (digit_char _) _ = String (digit_char _) _ =>
             f_equal; try (apply digit_char_mod; Z.div_mod_to_equations; lia)
         | |- String ?c _ = String ?c _ => f_equal
         end.
Qed.

(** C8: the text [2013-05-17T10:00:00Z] is parsed to a timestamp whose
    re-serialization in the format [YYYY-MM-DDTHH:MM:SSZ] is that text
    again, and so is every text in that exact format that denotes a
    valid date and time (a year from 1 to 9999, a day of that month, a
    time of day to the second below 24:00:00). *)
Theorem parse_date_round_trip :
  (exists t, parse_date "2013-05-17T10:00:00Z" = Ret t
             /\ serialize t = "2013-05-17T10:00:00Z")
  /\ (forall s, exact_format s = true ->
        exists t, parse_date s = Ret t /\ serialize t = s).
Proof.
  split.
  - exists (mkDatetime 2013 5 17 10 0 0). split; vm_compute; reflexivity.
  - intros s H. unfold exact_format in H. apply andb_prop in H as [Hfits Hvalid].
    exists (denoted s). pose proof (fits_serialize s Hfits) as Hs.
    split; [|exact Hs].
    unfold parse_date. rewrite <- Hs at 1. apply strptime_serialize. exact Hvalid.
Qed.

(** ** The properties at work on the example wikis *)

(** C1 at work: a handshake login and a logout of a client with warm
    caches. *)
Lemma login_logout_reset_flag_only_witness :
  (login Example.json_loads Example.wiki 3 "Ada" "secret" None Example.warm
     = (fst (login Example.json_loads Example.wiki 3 "Ada" "secret" None
               Example.warm), Ret true)
   /\ logout Example.json_loads Example.wiki Example.warm
     = (fst (logout Example.json_loads Example.wiki Example.warm), Ret true))
  /\ (_high_limits (self (fst (login Example.json_loads Example.wiki 3 "Ada"
                                 "secret" None Example.warm))) = None
      /\ _high_limits (self (fst (logout Example.json_loads Example.wiki
                                    Example.warm))) = None).
Proof.
  split; [split; vm_compute; reflexivity|]. split.
  - apply (login_logout_reset_flag_only Example.json_loads Example.wiki
             3 "Ada" "secret" None Example.warm).
    vm_compute; reflexivity.
  - apply (proj2 (login_logout_reset_flag_only Example.json_loads Example.wiki
                    3 "Ada" "secret" None Example.warm _) true).
    vm_compute; reflexivity.
Defined.

(** C1, as stated, fails: after a logout that returns [True] both
    namespace tables still hold what they held before. *)
Lemma logout_keeps_namespaces :
  snd (logout Example.json_loads Example.wiki Example.warm) = Ret true
  /\ _namespaces (self (fst (logout Example.json_loads Example.wiki
                               Example.warm)))
     = Some {[ 0 := JStr "" ]}
  /\ _psuedo_namespaces (self (fst (logout Example.json_loads Example.wiki
                                      Example.warm)))
     = Some {[ -1 := JStr "Special" ]}.
Proof. repeat split; vm_compute; reflexivity. Qed.

(** C3, as stated, fails: both probes of a run that tries the candidate
    too are sent as POSTs, none as a GET. *)
Lemma normalize_probes_not_get :
  map rq_get
    (sent (fst (normalize_api_url Example.json_loads Example.pages
                  (Example.fresh "http://wiki.example/index.php?title=Main"))))
  = [false; false].
Proof. vm_compute; reflexivity. Qed.



(** C6 at work: two calls on a fresh client whose account holds
    [apihighlimits], and a call after a handshake login. *)
Lemma limits_one_lookup_witness :
  ([(50, 500); (10, 20)] <> []
   /\ _high_limits (self (Example.fresh "http://wiki.example/w/api.php")) = None
   /\ decoded Example.json_loads
        (Example.wiki
           (sent (Example.fresh "http://wiki.example/w/api.php")
            ++ [posted (Example.fresh "http://wiki.example/w/api.php")
                  rights_query])%list)
      = Ret (Example.rights ["read"; "apihighlimits"])
   /\ rights_of (Example.rights ["read"; "apihighlimits"])
      = Ret (JArr [JStr "read"; JStr "apihighlimits"])
   /\ login Example.json_loads Example.wiki 3 "Ada" "secret" None Example.warm
      = (fst (login Example.json_loads Example.wiki 3 "Ada" "secret" None
                Example.warm), Ret true))
  /\ (exists w',
        limits_each Example.json_loads Example.wiki [(50, 500); (10, 20)]
          (Example.fresh "http://wiki.example/w/api.php")
        = (w', Ret [500; 20])
        /\ sent w' = [posted (Example.fresh "http://wiki.example/w/api.php")
                        rights_query])
  /\ length (sent (fst (limits Example.json_loads Example.wiki 50 500
                          (fst (login Example.json_loads Example.wiki 3 "Ada"
                                  "secret" None Example.warm)))))
     = 3%nat.
Proof.
  split; [repeat split; try (vm_compute; reflexivity); discriminate|].
  destruct (limits_one_lookup Example.json_loads Example.wiki) as [Hrun Hfresh].
  split.
  - apply (Hrun Z [(50, 500); (10, 20)]
             (Example.fresh "http://wiki.example/w/api.php")
             (Example.rights ["read"; "apihighlimits"])
             [JStr "read"; JStr "apihighlimits"]);
      try (vm_compute; reflexivity); discriminate.
  - rewrite (Hfresh Z 3%nat "Ada" "secret" None Example.warm
               (fst (login Example.json_loads Example.wiki 3 "Ada" "secret"
                       None Example.warm)) 50 500).
    + vm_compute; reflexivity.
    + left. vm_compute; reflexivity.
Defined.

(** C7 at work: a fresh client against a wiki with two pseudo and two
    content namespaces. *)
Lemma namespaces_one_fetch_witness :
  (_namespaces (self (Example.fresh "http://wiki.example/w/api.php")) = None
   /\ namespaces Example.json_loads Example.py_int Example.wiki false
        (Example.fresh "http://wiki.example/w/api.php")
      = (fst (namespaces Example.json_loads Example.py_int Example.wiki false
                (Example.fresh "http://wiki.example/w/api.php")),
         Ret (Some (<[0 := JStr ""]> {[ 1 := JStr "Talk" ]}))))
  /\ exists content pseudo,
       partitioned
         (fst (namespaces Example.json_loads Example.py_int Example.wiki false
                 (Example.fresh "http://wiki.example/w/api.php")))
         content pseudo
       /\ Some (<[0 := JStr ""]> {[ 1 := JStr "Talk" ]}) = Some content
       /\ namespaces Example.json_loads Example.py_int Example.wiki true
            (fst (namespaces Example.json_loads Example.py_int Example.wiki
                    false (Example.fresh "http://wiki.example/w/api.php")))
          = (fst (namespaces Example.json_loads Example.py_int Example.wiki
                    false (Example.fresh "http://wiki.example/w/api.php")),
             Ret (Some (pseudo ∪ content)))
       /\ sent (fst (namespaces Example.json_loads Example.py_int Example.wiki
                       false (Example.fresh "http://wiki.example/w/api.php")))
          = (sent (Example.fresh "http://wiki.example/w/api.php")
             ++ [posted (Example.fresh "http://wiki.example/w/api.php")
                   siteinfo_query])%list
       /\ dom content ⊆ dom (pseudo ∪ content).
Proof.
  split; [split; vm_compute; reflexivity|].
  apply (namespaces_one_fetch Example.json_loads Example.py_int Example.wiki
           (Example.fresh "http://wiki.example/w/api.php")).
  - reflexivity.
  - vm_compute; reflexivity.
Defined.

(** C8 at work: the last second of 1999. *)
Lemma parse_date_round_trip_witness :
  exact_format "1999-12-31T23:59:59Z" = true
  /\ exists t, parse_date "1999-12-31T23:59:59Z" = Ret t
               /\ serialize t = "1999-12-31T23:59:59Z".
Proof.
  split; [vm_compute; reflexivity|].
  apply (proj2 parse_date_round_trip "1999-12-31T23:59:59Z").
  vm_compute; reflexivity.
Defined.

(** C10 at work: a wiki that asks for a token twice; the login fails
    and the warm caches stay as they were. *)
Lemma failed_login_keeps_caches_witness :
  login Example.json_loads Example.stubborn 3 "Ada" "secret" None Example.warm
    = (fst (login Example.json_loads Example.stubborn 3 "Ada" "secret" None
              Example.warm), Ret false)
  /\ _high_limits (self (fst (login Example.json_loads Example.stubborn 3
                                "Ada" "secret" None Example.warm)))
     = _high_limits (self Example.warm)
  /\ _namespaces (self (fst (login Example.json_loads Example.stubborn 3
                               "Ada" "secret" None Example.warm)))
     = _namespaces (self Example.warm)
  /\ _psuedo_namespaces (self (fst (login Example.json_loads Example.stubborn 3
                                      "Ada" "secret" None Example.warm)))
     = _psuedo_namespaces (self Example.warm)
  /\ _api_url (self (fst (login Example.json_loads Example.stubborn 3
                            "Ada" "secret" None Example.warm)))
     = _api_url (self Example.warm).
Proof.
  split; [vm_compute; reflexivity|].
  apply (failed_login_keeps_caches Example.json_loads Example.stubborn
           3 "Ada" "secret" None Example.warm).
  vm_compute; reflexivity.
Defined.

(** ** [parse_date] accepts every lenient writing *)












(** ** [build_user_agent] *)

Lemma prefix_append (a b : string) : String.prefix a (a ++ b) = true.
Proof.
  induction a as [|c a IH]; [destruct b; reflexivity|].
  change (String c a ++ b)%string with (String c (a ++ b)%string).
  cbn [String.prefix]. destruct (ascii_dec c c); [exact IH|congruence].
Qed.

Lemma occurs_append (sep a b : string) : Py.occurs sep (a ++ sep ++ b) = true.
Proof.
  unfold Py.occurs.
  assert (H : exists h, Py.before sep (a ++ sep ++ b) = Some h).
  { induction a as [|c a [h IH]].
    - change ("" ++ sep ++ b)%string with (sep ++ b)%string.
      exists "". destruct (sep ++ b)%string eqn:E; cbn [Py.before];
        rewrite <- E, prefix_append; reflexivity.
    - change (String c a ++ sep ++ b)%string
        with (String c (a ++ sep ++ b)%string).
      cbn [Py.before]. destruct (String.prefix sep _); [eauto|].
      rewrite IH. cbn. eauto. }
  destruct H as [h ->]. reflexivity.
Qed.

(** X14: whatever name, version and URL it is given, the User-Agent
    that [build_user_agent] builds starts with [name/version] and a
    blank, names this library with its version, and ends with the URL
    in [(+...)]. *)
Theorem build_user_agent_shape (application_name version url : string) :
  String.prefix (application_name ++ "/" ++ version ++ " ")
    (build_user_agent application_name version url) = true
  /\ Py.occurs "python-simplemediawiki/1.2.0b2"
       (build_user_agent application_name version url) = true
  /\ exists front,
       build_user_agent application_name version url
         = (front ++ " (+" ++ url ++ ")")%string.
Proof.
  unfold build_user_agent, __version__. split; [|split].
  - replace (application_name ++ "/" ++ version ++ " "
             ++ "python-simplemediawiki" ++ "/" ++ "1.2.0b2" ++ " (+" ++ url ++ ")")%string
      with ((application_name ++ "/" ++ version ++ " ")
            ++ "python-simplemediawiki" ++ "/" ++ "1.2.0b2" ++ " (+" ++ url ++ ")")%string
      by (rewrite !append_assoc; reflexivity).
    apply prefix_append.
  - replace (application_name ++ "/" ++ version ++ " "
             ++ "python-simplemediawiki" ++ "/" ++ "1.2.0b2" ++ " (+" ++ url ++ ")")%string
      with ((application_name ++ "/" ++ version ++ " ")
            ++ "python-simplemediawiki/1.2.0b2" ++ " (+" ++ url ++ ")")%string
      by (rewrite !append_assoc; reflexivity).
    apply occurs_append.
  - exists (application_name ++ "/" ++ version ++ " "
            ++ "python-simplemediawiki/1.2.0b2")%string.
    rewrite !append_assoc. reflexivity.
Qed.

(** ** The further properties at work *)


(** X2 at work: a handshake login. *)
Lemma login_answer_is_last_reply_witness :
  login Example.json_loads Example.wiki 3 "Ada" "secret" None Wikis.client
    = (fst (login Example.json_loads Example.wiki 3 "Ada" "secret" None
              Wikis.client), Ret true)
  /\ exists result l r,
       decoded Example.json_loads
         (Example.wiki
            (sent (fst (login Example.json_loads Example.wiki 3 "Ada" "secret"
                          None Wikis.client))))
         = Ret result
       /\ Py.item result "login" = Ret l
       /\ Py.item l "result" = Ret r
       /\ true = Py.eq_str r "Success".
Proof.
  split; [vm_compute; reflexivity|].
  apply (login_answer_is_last_reply Example.json_loads Example.wiki
           3 "Ada" "secret" None Wikis.client).
  vm_compute; reflexivity.
Defined.

(** X4 at work: a private wiki answers the login with an API error. *)
Lemma login_raises_on_reply_without_login_witness :
  (decoded Wikis.json_loads
     (Wikis.private
        (sent Wikis.client
         ++ [posted Wikis.client (login_params "Ada" "secret" JNull None)])%list)
     = Ret (JObj [("error", JObj [("code", JStr "readapidenied")])])
   /\ Py.assoc "login" [("error", JObj [("code", JStr "readapidenied")])] = None)
  /\ login Wikis.json_loads Wikis.private 1 "Ada" "secret" None Wikis.client
     = ({| self := self Wikis.client;
           sent := (sent Wikis.client
                    ++ [posted Wikis.client
                          (login_params "Ada" "secret" JNull None)])%list |},
        Raise KeyError).
Proof.
  split; [split; reflexivity|].
  apply (login_raises_on_reply_without_login Wikis.json_loads Wikis.private
           0 "Ada" "secret" None Wikis.client
           [("error", JObj [("code", JStr "readapidenied")])]);
    reflexivity.
Defined.


(** X6 at work: the rights lookup at a private wiki. *)
Lemma limits_failure_is_not_cached_witness :
  limits Wikis.json_loads Wikis.private 50 500 Wikis.client
    = (fst (limits Wikis.json_loads Wikis.private 50 500 Wikis.client),
       Raise KeyError)
  /\ _high_limits (self Wikis.client) = None
  /\ self (fst (limits Wikis.json_loads Wikis.private 50 500 Wikis.client))
     = self Wikis.client
  /\ sent (fst (limits Wikis.json_loads Wikis.private 50 500 Wikis.client))
     = (sent Wikis.client ++ [posted Wikis.client rights_query])%list
  /\ forall low' high' : Z,
       sent (fst (limits Wikis.json_loads Wikis.private low' high'
                    (fst (limits Wikis.json_loads Wikis.private 50 500
                            Wikis.client))))
       = (sent (fst (limits Wikis.json_loads Wikis.private 50 500 Wikis.client))
          ++ [posted (fst (limits Wikis.json_loads Wikis.private 50 500
                             Wikis.client)) rights_query])%list.
Proof.
  split; [vm_compute; reflexivity|].
  apply (limits_failure_is_not_cached Wikis.json_loads Wikis.private 50 500
           Wikis.client _ KeyError).
  vm_compute; reflexivity.
Defined.

(** X9 at work: a namespace list with an entry without a name, and a
    host that is down. *)
Lemma namespaces_failure_is_cached_witness :
  (_namespaces (self Wikis.client) = None
   /\ namespaces Wikis.json_loads Example.py_int Wikis.torn true Wikis.client
      = (fst (namespaces Wikis.json_loads Example.py_int Wikis.torn true
                Wikis.client), Raise KeyError)
   /\ decoded Wikis.json_loads
        (Wikis.torn (sent Wikis.client
                     ++ [posted Wikis.client siteinfo_query])%list)
      = Ret Wikis.torn_siteinfo
   /\ namespaces Example.json_loads Example.py_int Example.down true
        Wikis.client
      = (fst (namespaces Example.json_loads Example.py_int Example.down true
                Wikis.client), Raise URLError)
   /\ decoded Example.json_loads
        (Example.down (sent Wikis.client
                       ++ [posted Wikis.client siteinfo_query])%list)
      = Raise URLError)
  /\ (exists content pseudo,
        partitioned
          (fst (namespaces Wikis.json_loads Example.py_int Wikis.torn true
                  Wikis.client)) content pseudo
        /\ forall psuedo',
             namespaces Wikis.json_loads Example.py_int Wikis.torn psuedo'
               (fst (namespaces Wikis.json_loads Example.py_int Wikis.torn true
                       Wikis.client))
             = (fst (namespaces Wikis.json_loads Example.py_int Wikis.torn true
                       Wikis.client),
                Ret (Some (if psuedo' then pseudo ∪ content else content))))
  /\ (self (fst (namespaces Example.json_loads Example.py_int Example.down true
                   Wikis.client)) = self Wikis.client
      /\ URLError = URLError).
Proof.
  split; [repeat split; vm_compute; reflexivity|]. split.
  - apply (proj1 (namespaces_failure_is_cached Wikis.json_loads Example.py_int
                    Wikis.torn true Wikis.client _ KeyError eq_refl
                    ltac:(vm_compute; reflexivity))
             Wikis.torn_siteinfo).
    vm_compute; reflexivity.
  - apply (proj2 (namespaces_failure_is_cached Example.json_loads Example.py_int
                    Example.down true Wikis.client _ URLError eq_refl
                    ltac:(vm_compute; reflexivity))
             URLError).
    vm_compute; reflexivity.
Defined.

(** X10 at work: the four namespaces of the example wiki. *)
Lemma namespaces_files_every_entry_witness :
  (_namespaces (self Wikis.client) = None
   /\ namespaces Example.json_loads Example.py_int Example.wiki false
        Wikis.client
      = (fst (namespaces Example.json_loads Example.py_int Example.wiki false
                Wikis.client),
         Ret (Some (<[0 := JStr ""]> {[ 1 := JStr "Talk" ]}))))
  /\ exists result nsids content pseudo,
       decoded Example.json_loads
         (Example.wiki (sent Wikis.client
                        ++ [posted Wikis.client siteinfo_query])%list)
         = Ret result
       /\ nsids_of result = Ret nsids
       /\ partitioned
            (fst (namespaces Example.json_loads Example.py_int Example.wiki
                    false Wikis.client)) content pseudo
       /\ Some (<[0 := JStr ""]> {[ 1 := JStr "Talk" ]}) = Some content
       /\ (forall nsid, In nsid nsids ->
             exists n name,
               entry_of Example.py_int result nsid = Ret (n, name)
               /\ n ∈ dom (if 0 <=? n then content else pseudo))
       /\ (forall n name,
             (if 0 <=? n then content else pseudo) !! n = Some name ->
             exists nsid,
               In nsid nsids
               /\ entry_of Example.py_int result nsid = Ret (n, name)).
Proof.
  split; [split; vm_compute; reflexivity|].
  apply (namespaces_files_every_entry Example.json_loads Example.py_int
           Example.wiki Wikis.client).
  - reflexivity.
  - vm_compute; reflexivity.
Defined.

(** X11 at work: a client given the URL of a page of a wiki whose API
    is at [api.php]. *)
Lemma normalize_returns_answering_url_witness :
  normalize_api_url Wikis.json_loads Wikis.site Wikis.lost
    = (fst (normalize_api_url Wikis.json_loads Wikis.site Wikis.lost),
       Ret (Some "http://wiki.example/api.php"))
  /\ _api_url (self (fst (normalize_api_url Wikis.json_loads Wikis.site
                            Wikis.lost)))
     = "http://wiki.example/api.php"
  /\ (exists history data,
        sent (fst (normalize_api_url Wikis.json_loads Wikis.site Wikis.lost))
          = (history ++ [probe "http://wiki.example/api.php"])%list
        /\ Wikis.site
             (sent (fst (normalize_api_url Wikis.json_loads Wikis.site
                           Wikis.lost))) = Body data
        /\ answered Wikis.json_loads data = true)
  /\ ("http://wiki.example/api.php" = _api_url (self Wikis.lost)
      \/ exists head rest,
           _api_url (self Wikis.lost) = (head ++ "index.php" ++ rest)%string
           /\ Py.before "index.php" (_api_url (self Wikis.lost)) = Some head
           /\ "http://wiki.example/api.php" = (head ++ "api.php")%string).
Proof.
  split; [vm_compute; reflexivity|].
  apply (normalize_returns_answering_url Wikis.json_loads Wikis.site
           Wikis.lost).
  vm_compute; reflexivity.
Defined.

(** X13 at work: the same client; the call after the normalization goes
    to [api.php]. *)
Lemma normalize_switches_endpoint_witness :
  (Py.before "index.php" (_api_url (self Wikis.lost))
     = Some "http://wiki.example/"
   /\ Wikis.site (sent Wikis.lost ++ [probe (_api_url (self Wikis.lost))])%list
      = Body "<!DOCTYPE html>"
   /\ answered Wikis.json_loads "<!DOCTYPE html>" = false
   /\ Wikis.site (sent Wikis.lost
                  ++ [probe (_api_url (self Wikis.lost));
                      probe ("http://wiki.example/" ++ "api.php")%string])%list
      = Body "{'query': {'general': {'sitename': 'Example'}}}"
   /\ answered Wikis.json_loads
        "{'query': {'general': {'sitename': 'Example'}}}" = true)
  /\ snd (normalize_api_url Wikis.json_loads Wikis.site Wikis.lost)
     = Ret (Some ("http://wiki.example/" ++ "api.php")%string)
  /\ _api_url (self (fst (normalize_api_url Wikis.json_loads Wikis.site
                            Wikis.lost)))
     = ("http://wiki.example/" ++ "api.php")%string
  /\ forall params,
       last (sent (fst (call Wikis.json_loads Wikis.site params
                          (fst (normalize_api_url Wikis.json_loads Wikis.site
                                  Wikis.lost)))))
       = Some (mkRequest false ("http://wiki.example/" ++ "api.php")%string
                 (<["format" := JStr "json"]> params)).
Proof.
  split; [repeat split; vm_compute; reflexivity|].
  apply (normalize_switches_endpoint Wikis.json_loads Wikis.site Wikis.lost
           "http://wiki.example/" "<!DOCTYPE html>"
           "{'query': {'general': {'sitename': 'Example'}}}");
    vm_compute; reflexivity.
Defined.



(** X16 at work: the handshake against the example wiki. *)
Lemma login_handshake_witness :
  (decoded Example.json_loads
     (Example.wiki
        (sent Wikis.client
         ++ [posted Wikis.client (login_params "Ada" "secret" JNull None)])%list)
     = Ret (Example.need_token "b5780b")
   /\ Py.item (Example.need_token "b5780b") "login"
      = Ret (JObj [("result", JStr "NeedToken"); ("token", JStr "b5780b")])
   /\ Py.item (JObj [("result", JStr "NeedToken"); ("token", JStr "b5780b")])
        "result" = Ret (JStr "NeedToken")
   /\ Py.item (JObj [("result", JStr "NeedToken"); ("token", JStr "b5780b")])
        "token" = Ret (JStr "b5780b")
   /\ Py.truthy (JStr "b5780b") = true
   /\ decoded Example.json_loads
        (Example.wiki
           (sent Wikis.client
            ++ [posted Wikis.client (login_params "Ada" "secret" JNull None);
                posted Wikis.client
                  (login_params "Ada" "secret" (JStr "b5780b") None)])%list)
      = Ret Example.login_success
   /\ Py.item Example.login_success "login"
      = Ret (JObj [("result", JStr "Success")])
   /\ Py.item (JObj [("result", JStr "Success")]) "result"
      = Ret (JStr "Success"))
  /\ exists w',
       login Example.json_loads Example.wiki 2 "Ada" "secret" None Wikis.client
         = (w', Ret (Py.eq_str (JStr "Success") "Success"))
       /\ sent w'
          = (sent Wikis.client
             ++ [posted Wikis.client (login_params "Ada" "secret" JNull None);
                 posted Wikis.client
                   (login_params "Ada" "secret" (JStr "b5780b") None)])%list.
Proof.
  split; [repeat split; vm_compute; reflexivity|].
  apply (login_handshake Example.json_loads Example.wiki 0 "Ada" "secret" None
           Wikis.client (Example.need_token "b5780b")
           (JObj [("result", JStr "NeedToken"); ("token", JStr "b5780b")])
           (JStr "b5780b") Example.login_success
           (JObj [("result", JStr "Success")]) (JStr "Success"));
    vm_compute; reflexivity.
Defined.
